(** * Consensus-parameter resolution of chainparams.cpp

    A shallow embedding of the height -> parameter and height -> address
    resolution code of [src/chainparams.cpp]: the founders-reward address
    rotation (legacy and Ycash schemes), the Equihash parameter lookup,
    network selection by name and the regtest schedule mutator.

    C++ [int] is a 32-bit two's-complement integer and [size_t] a 64-bit
    unsigned one; both are carried as [Z] with the wrap-around written out.
    [assert], [throw] and the undefined operations ([operator[]] out of
    range, division by zero) are results of an error type. *)

From Stdlib Require Import ZArith Lia.
From stdpp Require Import base decidable option list strings gmap functions.

Local Open Scope Z_scope.

(* ===================================================================== *)
(** ** Machine integers *)
(* ===================================================================== *)

Definition INT_MIN : Z := - 2 ^ 31.
Definition INT_MAX : Z := 2 ^ 31 - 1.
Definition SIZE_MAX : Z := 2 ^ 64 - 1.
Definition PTRDIFF_MAX : Z := 2 ^ 63 - 1.

(** The values an [int] variable can hold. *)
Definition is_int (z : Z) : Prop := INT_MIN <= z <= INT_MAX.

(** Narrowing of a mathematical result to [int]. *)
Definition int_wrap (z : Z) : Z := (z + 2 ^ 31) mod 2 ^ 32 - 2 ^ 31.

(** Conversion of an [int] operand to [size_t] (usual arithmetic
    conversions when the other operand is a [size_t]). *)
Definition size_t_of (z : Z) : Z := z mod 2 ^ 64.

(** What ends a call abnormally. *)
Inductive failure : Type :=
| assertion_failed
| runtime_error (what : string)
| undefined_behaviour.

Inductive result (A : Type) : Type :=
| Ok (a : A)
| Err (e : failure).
Arguments Ok {A} a.
Arguments Err {A} e.

#[global] Instance result_ret : MRet result := @Ok.
#[global] Instance result_bind : MBind result :=
  fun A B f m => match m with Ok a => f a | Err e => Err e end.

(** [assert(b)]. *)
Definition assert (b : bool) : result unit :=
  if b then Ok tt else Err assertion_failed.

Definition int_add (a b : Z) : Z := int_wrap (a + b).
Definition int_sub (a b : Z) : Z := int_wrap (a - b).

(** [a / b] on [int]: truncation towards zero, undefined for [b = 0]. *)
Definition int_div (a b : Z) : result Z :=
  if b =? 0 then Err undefined_behaviour else Ok (int_wrap (a ÷ b)).

Definition size_add (a b : Z) : Z := (a + b) mod 2 ^ 64.

(** [a / b] and [a % b] on [size_t]. *)
Definition size_div (a b : Z) : result Z :=
  if b =? 0 then Err undefined_behaviour else Ok (a / b).
Definition size_rem (a b : Z) : result Z :=
  if b =? 0 then Err undefined_behaviour else Ok (a mod b).

(** [std::vector::size()] and [operator[]]. *)
Definition size {A} (v : list A) : Z := Z.of_nat (length v).

Definition at_index {A} (v : list A) (i : Z) : result A :=
  match v !! Z.to_nat i with
  | Some a => Ok a
  | None => Err undefined_behaviour
  end.

(** A [std::vector] never holds more than [PTRDIFF_MAX] elements. *)
Definition vector_ok {A} (v : list A) : Prop := size v <= PTRDIFF_MAX.

(* ===================================================================== *)
(** ** Consensus parameters *)
(* ===================================================================== *)

Module Consensus.

(** Modelled from the spec: the enumeration [Consensus::UpgradeIndex]
    (declared in consensus/params.h, not in this file), in the deployment
    order the spec gives and in which the constructors below fill
    [vUpgrades]. *)
Inductive UpgradeIndex : Type :=
| BASE_SPROUT
| UPGRADE_TESTDUMMY
| UPGRADE_OVERWINTER
| UPGRADE_SAPLING
| UPGRADE_YCASH
| UPGRADE_BLOSSOM
| UPGRADE_HEARTWOOD
| UPGRADE_CANOPY
| UPGRADE_NU5
| UPGRADE_ZFUTURE.

#[global] Instance UpgradeIndex_eq_dec : EqDecision UpgradeIndex.
Proof. solve_decision. Defined.

(** The integer an enumerator stands for. *)
Definition index_value (idx : UpgradeIndex) : Z :=
  match idx with
  | BASE_SPROUT => 0
  | UPGRADE_TESTDUMMY => 1
  | UPGRADE_OVERWINTER => 2
  | UPGRADE_SAPLING => 3
  | UPGRADE_YCASH => 4
  | UPGRADE_BLOSSOM => 5
  | UPGRADE_HEARTWOOD => 6
  | UPGRADE_CANOPY => 7
  | UPGRADE_NU5 => 8
  | UPGRADE_ZFUTURE => 9
  end.

(** Modelled from the spec: [MAX_NETWORK_UPGRADES], one past the last
    enumerator. *)
Definition MAX_NETWORK_UPGRADES : Z := 10.

(** All enumerators, in order. *)
Definition all_upgrades : list UpgradeIndex :=
  [BASE_SPROUT; UPGRADE_TESTDUMMY; UPGRADE_OVERWINTER; UPGRADE_SAPLING;
   UPGRADE_YCASH; UPGRADE_BLOSSOM; UPGRADE_HEARTWOOD; UPGRADE_CANOPY;
   UPGRADE_NU5; UPGRADE_ZFUTURE].

(** The enumerator of an in-range integer. *)
Definition index_of_value (z : Z) : option UpgradeIndex :=
  if (0 <=? z) && (z <? MAX_NETWORK_UPGRADES)
  then all_upgrades !! Z.to_nat z
  else None.

(** Modelled from the spec: the two sentinels of
    [NetworkUpgrade::nActivationHeight]. "AlwaysActive resolves to height
    0"; "NeverActive" is a value no block height takes. *)
Definition ALWAYS_ACTIVE : Z := 0.
Definition NO_ACTIVATION_HEIGHT : Z := -1.

Record NetworkUpgrade : Type := {
  nProtocolVersion : Z;
  nActivationHeight : Z
}.

(** The fields of [Consensus::Params] this file reads or writes. The
    array [vUpgrades[MAX_NETWORK_UPGRADES]] is a total map on the
    enumeration. *)
Record Params : Type := {
  fCoinbaseMustBeShielded : bool;
  nEquihashN : Z;
  nEquihashK : Z;
  vUpgrades : UpgradeIndex -> NetworkUpgrade
}.

(** Modelled from the spec: [Params::NetworkUpgradeActive] (defined in
    consensus/upgrades.cpp). An upgrade is active at a height when its
    activation height is not the NeverActive sentinel and is at most that
    height. *)
Definition NetworkUpgradeActive (params : Params) (nHeight : Z) (idx : UpgradeIndex) : bool :=
  let h := nActivationHeight (vUpgrades params idx) in
  negb (h =? NO_ACTIVATION_HEIGHT) && (h <=? nHeight).

End Consensus.

Import Consensus.

(** Modelled from the spec: [CurrentEpoch] (defined in
    consensus/upgrades.cpp): "the highest-ordered UpgradeIndex whose
    activation height is <= height"; the base index when no later one is
    active. *)
Definition CurrentEpoch (nHeight : Z) (params : Params) : UpgradeIndex :=
  default BASE_SPROUT
    (head (filter (fun idx => NetworkUpgradeActive params nHeight idx = true)
                  (reverse (tail all_upgrades)))).

(* ===================================================================== *)
(** ** Chain parameters *)
(* ===================================================================== *)

(** The fields of [CChainParams] the resolution code uses. *)
Record CChainParams : Type := {
  strNetworkID : string;
  consensus : Consensus.Params;
  fZIP209Enabled : bool;
  vFoundersRewardAddress : list string;
  vYcashFoundersRewardAddress : list string
}.

Definition GetConsensus (this : CChainParams) : Consensus.Params := consensus this.

(** An entry of the table [EquihashUpgradeInfo]. *)
Module EquihashInfo.
Record t : Type := { N : Z; K : Z }.
End EquihashInfo.

(** The three parameter objects with static storage; a reference or
    pointer to chain parameters designates one of them. *)
Inductive Network : Type := MainNet | TestNet | RegTest.

#[global] Instance Network_eq_dec : EqDecision Network.
Proof. solve_decision. Defined.

(** Modelled from the spec: the names [CBaseChainParams::MAIN], [TESTNET]
    and [REGTEST] (defined in chainparamsbase.cpp): "main", "test" and
    "regtest", the same strings the constructors store in [strNetworkID]. *)
Definition MAIN : string := "main".
Definition TESTNET : string := "test".
Definition REGTEST : string := "regtest".

Definition chain_name (n : Network) : string :=
  match n with MainNet => MAIN | TestNet => TESTNET | RegTest => REGTEST end.

Section Resolution.

(** What chainparams.cpp takes from the rest of the code base. *)

(** [Consensus::PRE_BLOSSOM_POW_TARGET_SPACING] and
    [Consensus::POST_BLOSSOM_POW_TARGET_SPACING], the old and the new
    target block spacing in seconds. *)
Variable PRE_BLOSSOM_POW_TARGET_SPACING : Z.
Variable POST_BLOSSOM_POW_TARGET_SPACING : Z.

(** [Consensus::Params::GetLastFoundersRewardBlockHeight], an [int]. *)
Variable GetLastFoundersRewardBlockHeight : Consensus.Params -> Z -> Z.

(** [KeyIO(params).ZecToYec]: re-encoding of a legacy address string for
    the network the [KeyIO] object was built from. *)
Variable ZecToYec : CChainParams -> string -> string.

(** [EquihashInfo::DEFAULT_PARAMS], the inherit-default sentinel. *)
Variable DEFAULT_PARAMS : Z.

(** Modelled from the spec: [Consensus::BLOSSOM_POW_TARGET_SPACING_RATIO]
    (declared in consensus/params.h), "the integer ratio of old to new
    target block spacing"; an [int] constant. *)
Definition BLOSSOM_POW_TARGET_SPACING_RATIO : Z :=
  PRE_BLOSSOM_POW_TARGET_SPACING / POST_BLOSSOM_POW_TARGET_SPACING.

(** *** Founders reward address rotation *)

(** Lines 771-775 of [GetFoundersRewardAddressAtHeight]: the zip208
    adjusted height, computed on [int]. *)
Definition FounderAddressAdjustedHeight (this : CChainParams) (nHeight : Z) : result Z :=
  let blossomActive := NetworkUpgradeActive (consensus this) nHeight UPGRADE_BLOSSOM in
  if blossomActive then
    let blossomActivationHeight :=
      nActivationHeight (vUpgrades (consensus this) UPGRADE_BLOSSOM) in
    q ← int_div (int_sub nHeight blossomActivationHeight) BLOSSOM_POW_TARGET_SPACING_RATIO;
    mret (int_add blossomActivationHeight q)
  else mret nHeight.

(** Line 777: [(preBlossomMaxHeight + size) / size], computed on
    [size_t]. *)
Definition legacyAddressChangeInterval (this : CChainParams) : result Z :=
  let preBlossomMaxHeight := GetLastFoundersRewardBlockHeight (consensus this) 0 in
  size_div (size_add (size_t_of preBlossomMaxHeight) (size (vFoundersRewardAddress this)))
           (size (vFoundersRewardAddress this)).

(** Lines 776-778: the assertion on the adjusted height and the index
    [i] into the legacy list. *)
Definition legacyIndex (this : CChainParams) (nHeight : Z) : result Z :=
  let preBlossomMaxHeight := GetLastFoundersRewardBlockHeight (consensus this) 0 in
  _ ← assert ((0 <? nHeight) && (nHeight <=? preBlossomMaxHeight));
  addressChangeInterval ← legacyAddressChangeInterval this;
  size_div (size_t_of nHeight) addressChangeInterval.

(** Lines 776-779: the legacy rotation applied to an adjusted height. *)
Definition legacyRotation (this : CChainParams) (nHeight : Z) : result string :=
  i ← legacyIndex this nHeight;
  a ← at_index (vFoundersRewardAddress this) i;
  mret (ZecToYec this a).

(** Lines 785-786: the index [i] of the Ycash scheme, before wrapping. *)
Definition ycashIndex (this : CChainParams) (nHeight : Z) : result Z :=
  let addressChangeInterval := 17917 in
  size_div
    (size_t_of (int_sub nHeight (nActivationHeight (vUpgrades (consensus this) UPGRADE_YCASH))))
    addressChangeInterval.

Definition GetFoundersRewardAddressAtHeight (this : CChainParams) (nHeight : Z) : result string :=
  if negb (NetworkUpgradeActive (GetConsensus this) nHeight UPGRADE_YCASH) then
    nHeight' ← FounderAddressAdjustedHeight this nHeight;
    legacyRotation this nHeight'
  else
    i ← ycashIndex this nHeight;
    j ← size_rem i (size (vYcashFoundersRewardAddress this));
    at_index (vYcashFoundersRewardAddress this) j.

(** *** Equihash parameters *)

Definition EquihashN (EquihashUpgradeInfo : UpgradeIndex -> EquihashInfo.t)
    (this : CChainParams) (nHeight : Z) : Z :=
  if String.eqb (strNetworkID this) "regtest" then nEquihashN (GetConsensus this)
  else
    let n := EquihashInfo.N (EquihashUpgradeInfo (CurrentEpoch nHeight (GetConsensus this))) in
    if n =? DEFAULT_PARAMS then nEquihashN (GetConsensus this) else n.

Definition EquihashK (EquihashUpgradeInfo : UpgradeIndex -> EquihashInfo.t)
    (this : CChainParams) (nHeight : Z) : Z :=
  if String.eqb (strNetworkID this) "regtest" then nEquihashK (GetConsensus this)
  else
    let k := EquihashInfo.K (EquihashUpgradeInfo (CurrentEpoch nHeight (GetConsensus this))) in
    if k =? DEFAULT_PARAMS then nEquihashK (GetConsensus this) else k.

End Resolution.

(* ===================================================================== *)
(** ** The three networks *)
(* ===================================================================== *)

(** What the constructors [CMainParams()], [CTestNetParams()] and
    [CRegTestParams()] store in the fields above. *)

Definition CMainParams_vUpgrades (idx : UpgradeIndex) : NetworkUpgrade :=
    match idx with
    | BASE_SPROUT => {| nProtocolVersion := 170002; nActivationHeight := ALWAYS_ACTIVE |}
    | UPGRADE_TESTDUMMY => {| nProtocolVersion := 170002; nActivationHeight := NO_ACTIVATION_HEIGHT |}
    | UPGRADE_OVERWINTER => {| nProtocolVersion := 170005; nActivationHeight := 347500 |}
    | UPGRADE_SAPLING => {| nProtocolVersion := 170007; nActivationHeight := 419200 |}
    | UPGRADE_YCASH => {| nProtocolVersion := 270007; nActivationHeight := 570000 |}
    | UPGRADE_BLOSSOM => {| nProtocolVersion := 270009; nActivationHeight := 1100000 |}
    | UPGRADE_HEARTWOOD => {| nProtocolVersion := 270011; nActivationHeight := 1100003 |}
    | UPGRADE_CANOPY => {| nProtocolVersion := 270013; nActivationHeight := 1100006 |}
    | UPGRADE_NU5 => {| nProtocolVersion := 270015; nActivationHeight := NO_ACTIVATION_HEIGHT |}
    | UPGRADE_ZFUTURE => {| nProtocolVersion := 0x7FFFFFFF; nActivationHeight := NO_ACTIVATION_HEIGHT |}
    end.

Definition CMainParams_vFoundersRewardAddress : list string :=
  [
    "t3Vz22vK5z2LcKEdg16Yv4FFneEL1zg9ojd"; "t3cL9AucCajm3HXDhb5jBnJK2vapVoXsop3";
    "t3fqvkzrrNaMcamkQMwAyHRjfDdM2xQvDTR"; "t3TgZ9ZT2CTSK44AnUPi6qeNaHa2eC7pUyF";
    "t3SpkcPQPfuRYHsP5vz3Pv86PgKo5m9KVmx"; "t3Xt4oQMRPagwbpQqkgAViQgtST4VoSWR6S";
    "t3ayBkZ4w6kKXynwoHZFUSSgXRKtogTXNgb"; "t3adJBQuaa21u7NxbR8YMzp3km3TbSZ4MGB";
    "t3K4aLYagSSBySdrfAGGeUd5H9z5Qvz88t2"; "t3RYnsc5nhEvKiva3ZPhfRSk7eyh1CrA6Rk";
    "t3Ut4KUq2ZSMTPNE67pBU5LqYCi2q36KpXQ"; "t3ZnCNAvgu6CSyHm1vWtrx3aiN98dSAGpnD";
    "t3fB9cB3eSYim64BS9xfwAHQUKLgQQroBDG"; "t3cwZfKNNj2vXMAHBQeewm6pXhKFdhk18kD";
    "t3YcoujXfspWy7rbNUsGKxFEWZqNstGpeG4"; "t3bLvCLigc6rbNrUTS5NwkgyVrZcZumTRa4";
    "t3VvHWa7r3oy67YtU4LZKGCWa2J6eGHvShi"; "t3eF9X6X2dSo7MCvTjfZEzwWrVzquxRLNeY";
    "t3esCNwwmcyc8i9qQfyTbYhTqmYXZ9AwK3X"; "t3M4jN7hYE2e27yLsuQPPjuVek81WV3VbBj";
    "t3gGWxdC67CYNoBbPjNvrrWLAWxPqZLxrVY"; "t3LTWeoxeWPbmdkUD3NWBquk4WkazhFBmvU";
    "t3P5KKX97gXYFSaSjJPiruQEX84yF5z3Tjq"; "t3f3T3nCWsEpzmD35VK62JgQfFig74dV8C9";
    "t3Rqonuzz7afkF7156ZA4vi4iimRSEn41hj"; "t3fJZ5jYsyxDtvNrWBeoMbvJaQCj4JJgbgX";
    "t3Pnbg7XjP7FGPBUuz75H65aczphHgkpoJW"; "t3WeKQDxCijL5X7rwFem1MTL9ZwVJkUFhpF";
    "t3Y9FNi26J7UtAUC4moaETLbMo8KS1Be6ME"; "t3aNRLLsL2y8xcjPheZZwFy3Pcv7CsTwBec";
    "t3gQDEavk5VzAAHK8TrQu2BWDLxEiF1unBm"; "t3Rbykhx1TUFrgXrmBYrAJe2STxRKFL7G9r";
    "t3aaW4aTdP7a8d1VTE1Bod2yhbeggHgMajR"; "t3YEiAa6uEjXwFL2v5ztU1fn3yKgzMQqNyo";
    "t3g1yUUwt2PbmDvMDevTCPWUcbDatL2iQGP"; "t3dPWnep6YqGPuY1CecgbeZrY9iUwH8Yd4z";
    "t3QRZXHDPh2hwU46iQs2776kRuuWfwFp4dV"; "t3enhACRxi1ZD7e8ePomVGKn7wp7N9fFJ3r";
    "t3PkLgT71TnF112nSwBToXsD77yNbx2gJJY"; "t3LQtHUDoe7ZhhvddRv4vnaoNAhCr2f4oFN";
    "t3fNcdBUbycvbCtsD2n9q3LuxG7jVPvFB8L"; "t3dKojUU2EMjs28nHV84TvkVEUDu1M1FaEx";
    "t3aKH6NiWN1ofGd8c19rZiqgYpkJ3n679ME"; "t3MEXDF9Wsi63KwpPuQdD6by32Mw2bNTbEa";
    "t3WDhPfik343yNmPTqtkZAoQZeqA83K7Y3f"; "t3PSn5TbMMAEw7Eu36DYctFezRzpX1hzf3M";
    "t3R3Y5vnBLrEn8L6wFjPjBLnxSUQsKnmFpv"; "t3Pcm737EsVkGTbhsu2NekKtJeG92mvYyoN"
  ].

Definition CMainParams_vYcashFoundersRewardAddress : list string :=
  [
    "s1hfWJ4ej1H3s8XCUb7YnrU68K64AsGVUHE"; "s1iZaRoYtafWspcieQxg6hhaU4DfZyAdGQf";
    "s1RSr6xec6Cc98emM4cdq45rkVekHMjRWbw"; "s1RsqYeweoKVepivLPLsiajE8c6khu5UKhS";
    "s1MNmqMWyV4nMWE4oDb1nqJs7haJrv9QTKp"; "s1RP95ESdcu33gMtU7deLW9TP6yDZncjRQ7";
    "s1h8W7xQbiU8Zxu21Zcg82NByjkWMcEbNtX"; "s1PVcdfcrJrDCmXxgSTGuKGSNhwSYZ51XKJ";
    "s1PkV5nFkgQN4EGuTtEcmm4CxeBVx2L5HHv"; "s1jiVSTfMaFUrWnf17BGc416oomHbut58Ue";
    "s1Zr2KdHtnK2zNSMQDrAVv3KU51mgDbqgwe"; "s1QkY6tmBHPZacXPMPmsjP37Kxgs5mcgcAn";
    "s1Xu76ZmGDENdLFAiuj5iMdp1RA4hWSNieq"; "s1bdiEnfBYaEgrt2TmnY3ZHmdhg5AEw9tjN";
    "s1asM9Ui4U13GjmLoAhvfK6J5QihemQR9Pk"; "s1QhTSXYu4K1cTNomN27wiep9WC9HBZjrxJ";
    "s1j3Ef2qCNjwRAM18BgwsPAZFzZ475BWM5S"; "s1QZibiN7iqVCfVBES9Gn7e3o5psxRKtpwE";
    "s1fdiDZHkzp8K8UajpVwYUdyFeb6jNVyoKv"; "s1iMShbVRH1eCGxK2ZoLMDn5o9NcwXkNPVF";
    "s1YtUXAMt8m31gGeP5m3Y53B1wrMk3FFigJ"; "s1gy9aqWUihGRjZa3vqc7136vqTGNAWyefF";
    "s1NNozrex18HZqcHCGpGoSRkj8hqHLEPaVC"; "s1NYNDdqthMf7D7sZbnLGuecDtXb48Ne2bf";
    "s1P7UJ9Wp7jstJPUbvMSRVFjN8tfQueQSK3"; "s1RDeyH7xg8y9veb9XfAmtKzrMTjFS14c4T";
    "s1NmH6MNXU19xoHjUfpQpb4dEMSy1Wbs9tC"; "s1UnFL2yrZapMKmB5EqaBKpogZmnXLUgELB";
    "s1XT3W1sLFdgmGoecQbPdJbjUDMurW8CFA2"; "s1gyVwgangQxLCAcm8VS4SWqXDqeohNg7hd";
    "s1k3eWbqnbVM1xtZEDc81UbFdwXgXNnbtdH"; "s1Wr6eAh3gZWwBVRZcND9YCzdNfR9cARkD4";
    "s1dtjp2KHWZ6qF2LvgNiEwjJV2dA2c6y75V"; "s1cjQf9kmjQdTmnn6mbBaesHMNLt2JqjyEV";
    "s1URQeusSoi7fkgyAwCshFzobUzmLGH4U3b"; "s1Z9YqM2h48HUf8kcSHS89q4Z6Bg9xua3kA";
    "s1TLmZzMDsDhYfh4vpY7NpRB4kao2UEEqKu"; "s1QEWvfC1uifDfi78NY7cArw9xLEja7QAZR";
    "s1b4kfW9WMUtd2H7X4C64KLzqPWdMPXRMtS"; "s1cHTXzCXhKYAX7sY7D8YGcmopjN8Yngoju";
    "s1QKjMQDeF9FLVo2sL8m11VC4ZA18s61s2K"; "s1gV8D561ZpmaZVxG176cQM1bMFMnHLvujE";
    "s1caQmLCYVDZegcMoBckHD2RXjBh7ikpj2j"; "s1Y63AsWsJTk5t5nSZfaFcFWmtfnFUUAu2V";
    "s1Y2U4GsfZdP9LAbC97GAmSdihBX5FU9gQn"; "s1bPYWZMXzyN2ML2vswDiCckmas775QFs2Q";
    "s1erG25RcWYCiBPbT7khTU4ULhzm8jJZ7pv"; "s1kYEiPdFZ3oV389q2MmSYY932qPF1ygVtx"
  ].

Definition CMainParams : CChainParams :=
  {| strNetworkID := "main";
     consensus :=
       {| fCoinbaseMustBeShielded := true;
          nEquihashN := 200;
          nEquihashK := 9;
          vUpgrades := CMainParams_vUpgrades |};
     fZIP209Enabled := true;
     vFoundersRewardAddress := CMainParams_vFoundersRewardAddress;
     vYcashFoundersRewardAddress := CMainParams_vYcashFoundersRewardAddress |}.

Definition CTestNetParams_vUpgrades (idx : UpgradeIndex) : NetworkUpgrade :=
    match idx with
    | BASE_SPROUT => {| nProtocolVersion := 170002; nActivationHeight := ALWAYS_ACTIVE |}
    | UPGRADE_TESTDUMMY => {| nProtocolVersion := 170002; nActivationHeight := NO_ACTIVATION_HEIGHT |}
    | UPGRADE_OVERWINTER => {| nProtocolVersion := 170003; nActivationHeight := 207500 |}
    | UPGRADE_SAPLING => {| nProtocolVersion := 170007; nActivationHeight := 280000 |}
    | UPGRADE_YCASH => {| nProtocolVersion := 270007; nActivationHeight := 510248 |}
    | UPGRADE_BLOSSOM => {| nProtocolVersion := 270008; nActivationHeight := 661610 |}
    | UPGRADE_HEARTWOOD => {| nProtocolVersion := 270010; nActivationHeight := 661622 |}
    | UPGRADE_CANOPY => {| nProtocolVersion := 270012; nActivationHeight := 661634 |}
    | UPGRADE_NU5 => {| nProtocolVersion := 270014; nActivationHeight := NO_ACTIVATION_HEIGHT |}
    | UPGRADE_ZFUTURE => {| nProtocolVersion := 0x7FFFFFFF; nActivationHeight := NO_ACTIVATION_HEIGHT |}
    end.

Definition CTestNetParams_vFoundersRewardAddress : list string :=
  [
    "t2UNzUUx8mWBCRYPRezvA363EYXyEpHokyi"; "t2N9PH9Wk9xjqYg9iin1Ua3aekJqfAtE543";
    "t2NGQjYMQhFndDHguvUw4wZdNdsssA6K7x2"; "t2ENg7hHVqqs9JwU5cgjvSbxnT2a9USNfhy";
    "t2BkYdVCHzvTJJUTx4yZB8qeegD8QsPx8bo"; "t2J8q1xH1EuigJ52MfExyyjYtN3VgvshKDf";
    "t2Crq9mydTm37kZokC68HzT6yez3t2FBnFj"; "t2EaMPUiQ1kthqcP5UEkF42CAFKJqXCkXC9";
    "t2F9dtQc63JDDyrhnfpzvVYTJcr57MkqA12"; "t2LPirmnfYSZc481GgZBa6xUGcoovfytBnC";
    "t26xfxoSw2UV9Pe5o3C8V4YybQD4SESfxtp"; "t2D3k4fNdErd66YxtvXEdft9xuLoKD7CcVo";
    "t2DWYBkxKNivdmsMiivNJzutaQGqmoRjRnL"; "t2C3kFF9iQRxfc4B9zgbWo4dQLLqzqjpuGQ";
    "t2MnT5tzu9HSKcppRyUNwoTp8MUueuSGNaB"; "t2AREsWdoW1F8EQYsScsjkgqobmgrkKeUkK";
    "t2Vf4wKcJ3ZFtLj4jezUUKkwYR92BLHn5UT"; "t2K3fdViH6R5tRuXLphKyoYXyZhyWGghDNY";
    "t2VEn3KiKyHSGyzd3nDw6ESWtaCQHwuv9WC"; "t2F8XouqdNMq6zzEvxQXHV1TjwZRHwRg8gC";
    "t2BS7Mrbaef3fA4xrmkvDisFVXVrRBnZ6Qj"; "t2FuSwoLCdBVPwdZuYoHrEzxAb9qy4qjbnL";
    "t2SX3U8NtrT6gz5Db1AtQCSGjrpptr8JC6h"; "t2V51gZNSoJ5kRL74bf9YTtbZuv8Fcqx2FH";
    "t2FyTsLjjdm4jeVwir4xzj7FAkUidbr1b4R"; "t2EYbGLekmpqHyn8UBF6kqpahrYm7D6N1Le";
    "t2NQTrStZHtJECNFT3dUBLYA9AErxPCmkka"; "t2GSWZZJzoesYxfPTWXkFn5UaxjiYxGBU2a";
    "t2RpffkzyLRevGM3w9aWdqMX6bd8uuAK3vn"; "t2JzjoQqnuXtTGSN7k7yk5keURBGvYofh1d";
    "t2AEefc72ieTnsXKmgK2bZNckiwvZe3oPNL"; "t2NNs3ZGZFsNj2wvmVd8BSwSfvETgiLrD8J";
    "t2ECCQPVcxUCSSQopdNquguEPE14HsVfcUn"; "t2JabDUkG8TaqVKYfqDJ3rqkVdHKp6hwXvG";
    "t2FGzW5Zdc8Cy98ZKmRygsVGi6oKcmYir9n"; "t2DUD8a21FtEFn42oVLp5NGbogY13uyjy9t";
    "t2UjVSd3zheHPgAkuX8WQW2CiC9xHQ8EvWp"; "t2TBUAhELyHUn8i6SXYsXz5Lmy7kDzA1uT5";
    "t2Tz3uCyhP6eizUWDc3bGH7XUC9GQsEyQNc"; "t2NysJSZtLwMLWEJ6MH3BsxRh6h27mNcsSy";
    "t2KXJVVyyrjVxxSeazbY9ksGyft4qsXUNm9"; "t2J9YYtH31cveiLZzjaE4AcuwVho6qjTNzp";
    "t2QgvW4sP9zaGpPMH1GRzy7cpydmuRfB4AZ"; "t2NDTJP9MosKpyFPHJmfjc5pGCvAU58XGa4";
    "t29pHDBWq7qN4EjwSEHg8wEqYe9pkmVrtRP"; "t2Ez9KM8VJLuArcxuEkNRAkhNvidKkzXcjJ";
    "t2D5y7J5fpXajLbGrMBQkFg2mFN8fo3n8cX"; "t2UV2wr1PTaUiybpkV3FdSdGxUJeZdZztyt"
  ].

Definition CTestNetParams_vYcashFoundersRewardAddress : list string :=
  [
    "smDw2LWkeuJ1NGBDDZvdNbzY8A9D1mkkDZm"; "smDxM6WPpz3HcK6m9cCnhQkBXMLnUf3cryA";
    "smEKdQPcZHYTmcTbVkqfWryRbEZWMrapjMo"; "smEVfJmuGErW6ZM3XSNwbJR6cPU3iPABAqY";
    "smEkWMsbV1CBZosu9wtq69f2vNXBT1owNKe"; "smFd3Dh5MjEttRHd9S8kx153Vzesefzjc2d";
    "smGBXB9SrjnEDf7ASQxvnujBRc1qBb58o5q"; "smGLTYjSriA3n8EMf4JTiHLGUCzUYjau3WV";
    "smGVF2kDywxhjfzBqoFDE1AyXZEafTLSjbH"; "smGVrxUHUzd2gaURPw2ASoE3L5WMFcxJcp1";
    "smHTCd59Q9pFzrzA73f6het1ozDzeQaA8E3"; "smHy6JaGM9gkaGBJ4DF4p5FbFvoUbpAusWd";
    "smJ1fpQdKNuchkxuVUMBkcCWoBcWFmyDAyZ"; "smJ2j3Gea5XH7ERpyYzvo6YQKaoYfzkMUS3";
    "smJ8gtE5EX5oFSp4c5cCDpxoajXTQu73VSC"; "smJyGxvwpCxPaFJM6TwZ6cwT1qz5PMPPBeL";
    "smKEt1iVgCDY9V4915HnGpFK3zyTPyQixMa"; "smKXxXsNLUVE8Qro6R9EyaEZmvgxqjbsFX9";
    "smLTH7FEiXUVpWjhoL91ToMoSZPU8xAvEh9"; "smLo65rNyiEYiVHxWZHNNP9QU1HsQu3QX7b";
    "smMDUN36MqFE4thY54CQnWBpU4ePuayF9TV"; "smMWmoipQ7YVuRAJaQHKqhHbbTg28mS6ET5";
    "smMtCCZsR3s7ZiEYskFietNPfSb1eVHNoZi"; "smMuh9QVkpQg93Gb54ucaVykbk9FgjZBN3D";
    "smNM44GrsbMWHQRhhayqieCadzURNDLkxkW"; "smNhJLQs3LmHWtVscrnJmrLhhjPcDD3unJZ";
    "smPHxC1438rANivn1omntbRF5Nf2wSZfFhs"; "smSAidYKoFY2fmi2efcoJPSeBpdVC2vyHvj";
    "smShCYXefsx8RcnW2b7duPKBcD5TXWY5K2A"; "smTRxVMtveLrdzVb1B9rLKfDZ3Qp8kAna7r";
    "smTnar3ernxTG5voae2bUC185EicBdSKVux"; "smUmPeP8VwuPsNTcJcB7YZY1b1HJJsJfkYp";
    "smVSGTzPP4dbj3HXRR84WoBFWw4EVuuyVi2"; "smW8AA9LAKGMj4EXxNtfJQFLFaiuzTyGwYa";
    "smWAgHkGiQ1fZHF9ZBjYzKS7ZX8JtjvWbaU"; "smX1HT3n9mtPGeK7qMBETCEGL5UG8eC8nmy";
    "smX3udkLyb3qZ2z2muEinbvNuSi5M2JiiE5"; "smXEcB2QZaZgevkB7CS1Tz2BZNQ9cnNwXBj";
    "smXddMXWZvpRDq4FjuTGxLWYTtwbNwc36g5"; "smXfPS6G7aiVECG8qFvZc9oFe1bzEvCKECG";
    "smXxQi63m9x2WfhdBYogWdKzavVpbnnGyJq"; "smZ53EtRafyjGZyjiNDb1FiGbwXbtE3aqTB";
    "smZJPM9KsKAdfotD6Woh2nb8wLedvhf4Nw5"; "smZyciv3CGZLAFU8d2yKff33FU8f2nek5yx";
    "smZzRpCLENnxN5JgMHaKtMruTCi7jsa7Tak"; "smaWKSqvUJvajRquGbaHBdNbL78fDf6hdwE";
    "smazMQ9G7NLJXAzX4ZMKc8x6DigyeoEucgk"; "smbTaZmsKNEVstoQVyZcJAMJExiytfnwaMU"
  ].

Definition CTestNetParams : CChainParams :=
  {| strNetworkID := "test";
     consensus :=
       {| fCoinbaseMustBeShielded := true;
          nEquihashN := 200;
          nEquihashK := 9;
          vUpgrades := CTestNetParams_vUpgrades |};
     fZIP209Enabled := true;
     vFoundersRewardAddress := CTestNetParams_vFoundersRewardAddress;
     vYcashFoundersRewardAddress := CTestNetParams_vYcashFoundersRewardAddress |}.

(** [CRegTestParams()] does not assign [fZIP209Enabled]; its initial value
    comes from the class declaration and is a parameter here. *)
Definition CRegTestParams_vUpgrades (idx : UpgradeIndex) : NetworkUpgrade :=
    match idx with
    | BASE_SPROUT => {| nProtocolVersion := 170002; nActivationHeight := ALWAYS_ACTIVE |}
    | UPGRADE_TESTDUMMY => {| nProtocolVersion := 170002; nActivationHeight := NO_ACTIVATION_HEIGHT |}
    | UPGRADE_OVERWINTER => {| nProtocolVersion := 170003; nActivationHeight := NO_ACTIVATION_HEIGHT |}
    | UPGRADE_SAPLING => {| nProtocolVersion := 170006; nActivationHeight := NO_ACTIVATION_HEIGHT |}
    | UPGRADE_YCASH => {| nProtocolVersion := 270007; nActivationHeight := NO_ACTIVATION_HEIGHT |}
    | UPGRADE_BLOSSOM => {| nProtocolVersion := 270008; nActivationHeight := NO_ACTIVATION_HEIGHT |}
    | UPGRADE_HEARTWOOD => {| nProtocolVersion := 270010; nActivationHeight := NO_ACTIVATION_HEIGHT |}
    | UPGRADE_CANOPY => {| nProtocolVersion := 270012; nActivationHeight := NO_ACTIVATION_HEIGHT |}
    | UPGRADE_NU5 => {| nProtocolVersion := 270014; nActivationHeight := NO_ACTIVATION_HEIGHT |}
    | UPGRADE_ZFUTURE => {| nProtocolVersion := 0x7FFFFFFF; nActivationHeight := NO_ACTIVATION_HEIGHT |}
    end.

Definition CRegTestParams_vFoundersRewardAddress : list string :=
  [
    "t2FwcEhFdNXuFMv1tcYwaBJtYVtMj8b1uTg"
  ].

Definition CRegTestParams_vYcashFoundersRewardAddress : list string :=
  [
    "smDw2LWkeuJ1NGBDDZvdNbzY8A9D1mkkDZm"; "smDxM6WPpz3HcK6m9cCnhQkBXMLnUf3cryA";
    "smEKdQPcZHYTmcTbVkqfWryRbEZWMrapjMo"; "smEVfJmuGErW6ZM3XSNwbJR6cPU3iPABAqY";
    "smEkWMsbV1CBZosu9wtq69f2vNXBT1owNKe"; "smFd3Dh5MjEttRHd9S8kx153Vzesefzjc2d";
    "smGBXB9SrjnEDf7ASQxvnujBRc1qBb58o5q"; "smGLTYjSriA3n8EMf4JTiHLGUCzUYjau3WV";
    "smGVF2kDywxhjfzBqoFDE1AyXZEafTLSjbH"; "smGVrxUHUzd2gaURPw2ASoE3L5WMFcxJcp1";
    "smHTCd59Q9pFzrzA73f6het1ozDzeQaA8E3"; "smHy6JaGM9gkaGBJ4DF4p5FbFvoUbpAusWd";
    "smJ1fpQdKNuchkxuVUMBkcCWoBcWFmyDAyZ"; "smJ2j3Gea5XH7ERpyYzvo6YQKaoYfzkMUS3";
    "smJ8gtE5EX5oFSp4c5cCDpxoajXTQu73VSC"; "smJyGxvwpCxPaFJM6TwZ6cwT1qz5PMPPBeL";
    "smKEt1iVgCDY9V4915HnGpFK3zyTPyQixMa"; "smKXxXsNLUVE8Qro6R9EyaEZmvgxqjbsFX9";
    "smLTH7FEiXUVpWjhoL91ToMoSZPU8xAvEh9"; "smLo65rNyiEYiVHxWZHNNP9QU1HsQu3QX7b";
    "smMDUN36MqFE4thY54CQnWBpU4ePuayF9TV"; "smMWmoipQ7YVuRAJaQHKqhHbbTg28mS6ET5";
    "smMtCCZsR3s7ZiEYskFietNPfSb1eVHNoZi"; "smMuh9QVkpQg93Gb54ucaVykbk9FgjZBN3D";
    "smNM44GrsbMWHQRhhayqieCadzURNDLkxkW"; "smNhJLQs3LmHWtVscrnJmrLhhjPcDD3unJZ";
    "smPHxC1438rANivn1omntbRF5Nf2wSZfFhs"; "smSAidYKoFY2fmi2efcoJPSeBpdVC2vyHvj";
    "smShCYXefsx8RcnW2b7duPKBcD5TXWY5K2A"; "smTRxVMtveLrdzVb1B9rLKfDZ3Qp8kAna7r";
    "smTnar3ernxTG5voae2bUC185EicBdSKVux"; "smUmPeP8VwuPsNTcJcB7YZY1b1HJJsJfkYp";
    "smVSGTzPP4dbj3HXRR84WoBFWw4EVuuyVi2"; "smW8AA9LAKGMj4EXxNtfJQFLFaiuzTyGwYa";
    "smWAgHkGiQ1fZHF9ZBjYzKS7ZX8JtjvWbaU"; "smX1HT3n9mtPGeK7qMBETCEGL5UG8eC8nmy";
    "smX3udkLyb3qZ2z2muEinbvNuSi5M2JiiE5"; "smXEcB2QZaZgevkB7CS1Tz2BZNQ9cnNwXBj";
    "smXddMXWZvpRDq4FjuTGxLWYTtwbNwc36g5"; "smXfPS6G7aiVECG8qFvZc9oFe1bzEvCKECG";
    "smXxQi63m9x2WfhdBYogWdKzavVpbnnGyJq"; "smZ53EtRafyjGZyjiNDb1FiGbwXbtE3aqTB";
    "smZJPM9KsKAdfotD6Woh2nb8wLedvhf4Nw5"; "smZyciv3CGZLAFU8d2yKff33FU8f2nek5yx";
    "smZzRpCLENnxN5JgMHaKtMruTCi7jsa7Tak"; "smaWKSqvUJvajRquGbaHBdNbL78fDf6hdwE";
    "smazMQ9G7NLJXAzX4ZMKc8x6DigyeoEucgk"; "smbTaZmsKNEVstoQVyZcJAMJExiytfnwaMU"
  ].

Definition CRegTestParams (fZIP209Enabled0 : bool) : CChainParams :=
  {| strNetworkID := "regtest";
     consensus :=
       {| fCoinbaseMustBeShielded := false;
          nEquihashN := 48;
          nEquihashK := 5;
          vUpgrades := CRegTestParams_vUpgrades |};
     fZIP209Enabled := fZIP209Enabled0;
     vFoundersRewardAddress := CRegTestParams_vFoundersRewardAddress;
     vYcashFoundersRewardAddress := CRegTestParams_vYcashFoundersRewardAddress |}.

(* ===================================================================== *)
(** ** Process-wide state, selection and the regtest mutators *)
(* ===================================================================== *)

Section Process.

(** The state behind [SelectBaseParams] (chainparamsbase.cpp) and the
    call itself, which may throw. *)
Variable BaseState : Type.
Variable SelectBaseParams : string -> BaseState -> result unit * BaseState.

(** [CChainParams::SetRegTestCoinbaseMustBeShielded] (chainparams.h). *)
Variable SetRegTestCoinbaseMustBeShielded : CChainParams -> CChainParams.

(** The objects with static storage this file defines or uses.
    [pCurrentParams] is null ([None]) or points to one of the three
    parameter objects, so a change to [regTestParams] is seen through
    a pointer to it. *)
Record Globals : Type := {
  mainParams : CChainParams;
  testNetParams : CChainParams;
  regTestParams : CChainParams;
  pCurrentParams : option Network;
  EquihashUpgradeInfo : UpgradeIndex -> EquihashInfo.t;
  mapArgs : gmap string string;
  baseState : BaseState
}.

Definition object (g : Globals) (n : Network) : CChainParams :=
  match n with
  | MainNet => mainParams g
  | TestNet => testNetParams g
  | RegTest => regTestParams g
  end.

Definition set_baseState (b : BaseState) (g : Globals) : Globals :=
  {| mainParams := mainParams g; testNetParams := testNetParams g;
     regTestParams := regTestParams g; pCurrentParams := pCurrentParams g;
     EquihashUpgradeInfo := EquihashUpgradeInfo g; mapArgs := mapArgs g;
     baseState := b |}.

Definition set_pCurrentParams (p : option Network) (g : Globals) : Globals :=
  {| mainParams := mainParams g; testNetParams := testNetParams g;
     regTestParams := regTestParams g; pCurrentParams := p;
     EquihashUpgradeInfo := EquihashUpgradeInfo g; mapArgs := mapArgs g;
     baseState := baseState g |}.

Definition set_regTestParams (r : CChainParams) (g : Globals) : Globals :=
  {| mainParams := mainParams g; testNetParams := testNetParams g;
     regTestParams := r; pCurrentParams := pCurrentParams g;
     EquihashUpgradeInfo := EquihashUpgradeInfo g; mapArgs := mapArgs g;
     baseState := baseState g |}.

Definition set_EquihashUpgradeInfo (t : UpgradeIndex -> EquihashInfo.t) (g : Globals) : Globals :=
  {| mainParams := mainParams g; testNetParams := testNetParams g;
     regTestParams := regTestParams g; pCurrentParams := pCurrentParams g;
     EquihashUpgradeInfo := t; mapArgs := mapArgs g;
     baseState := baseState g |}.

(** [mapArgs.count(key)] as a condition. *)
Definition count (m : gmap string string) (key : string) : bool :=
  match m !! key with Some _ => true | None => false end.

(** [const CChainParams &Params()]. *)
Definition Params_current (g : Globals) : result CChainParams :=
  match pCurrentParams g with
  | Some n => Ok (object g n)
  | None => Err assertion_failed
  end.

(** [CChainParams& Params(const std::string& chain)]; the reference it
    returns is one of the three objects. *)
Definition Params (chain : string) : result Network :=
  if String.eqb chain MAIN then Ok MainNet
  else if String.eqb chain TESTNET then Ok TestNet
  else if String.eqb chain REGTEST then Ok RegTest
  else Err (runtime_error ("Params: Unknown chain " ++ chain ++ ".")).

Definition SetRegTestZIP209Enabled (this : CChainParams) : CChainParams :=
  {| strNetworkID := strNetworkID this; consensus := consensus this;
     fZIP209Enabled := true;
     vFoundersRewardAddress := vFoundersRewardAddress this;
     vYcashFoundersRewardAddress := vYcashFoundersRewardAddress this |}.

(** [SelectParams]: the state a thrown exception leaves behind is the
    second component. *)
Definition SelectParams (network : string) (g : Globals) : result unit * Globals :=
  match SelectBaseParams network (baseState g) with
  | (Err e, b) => (Err e, set_baseState b g)
  | (Ok _, b) =>
    let g := set_baseState b g in
    match Params network with
    | Err e => (Err e, g)
    | Ok p =>
      let g := set_pCurrentParams (Some p) g in
      let g :=
        if String.eqb network REGTEST && count (mapArgs g) "-regtestshieldcoinbase"
        then set_regTestParams (SetRegTestCoinbaseMustBeShielded (regTestParams g)) g
        else g in
      let g :=
        if String.eqb network REGTEST && count (mapArgs g) "-developersetpoolsizezero"
        then set_regTestParams (SetRegTestZIP209Enabled (regTestParams g)) g
        else g in
      (Ok tt, g)
    end
  end.

(** [vUpgrades[idx].nActivationHeight = nActivationHeight]. *)
Definition set_nActivationHeight (idx : UpgradeIndex) (h : Z) (c : Consensus.Params) : Consensus.Params :=
  {| fCoinbaseMustBeShielded := fCoinbaseMustBeShielded c;
     nEquihashN := nEquihashN c;
     nEquihashK := nEquihashK c;
     vUpgrades :=
       <[ idx := {| nProtocolVersion := nProtocolVersion (vUpgrades c idx);
                    nActivationHeight := h |} ]> (vUpgrades c) |}.

Definition set_consensus (c : Consensus.Params) (this : CChainParams) : CChainParams :=
  {| strNetworkID := strNetworkID this; consensus := c;
     fZIP209Enabled := fZIP209Enabled this;
     vFoundersRewardAddress := vFoundersRewardAddress this;
     vYcashFoundersRewardAddress := vYcashFoundersRewardAddress this |}.

(** [CRegTestParams::UpdateNetworkUpgradeParameters]; [idx] is the
    integer value of the enumeration argument, which may be
    [MAX_NETWORK_UPGRADES]. *)
Definition CRegTestParams_UpdateNetworkUpgradeParameters
    (this : CChainParams) (idx : Z) (nActivationHeight : Z) : result CChainParams :=
  _ ← assert ((index_value BASE_SPROUT <? idx) && (idx <? MAX_NETWORK_UPGRADES));
  match index_of_value idx with
  | Some i => Ok (set_consensus (set_nActivationHeight i nActivationHeight (consensus this)) this)
  | None => Err undefined_behaviour
  end.

(** The free function [UpdateNetworkUpgradeParameters]. *)
Definition UpdateNetworkUpgradeParameters (idx : Z) (nActivationHeight : Z) (g : Globals)
    : result unit * Globals :=
  match CRegTestParams_UpdateNetworkUpgradeParameters (regTestParams g) idx nActivationHeight with
  | Ok r => (Ok tt, set_regTestParams r g)
  | Err e => (Err e, g)
  end.

(** [UpdateEquihashUpgradeParameters]. *)
Definition UpdateEquihashUpgradeParameters (idx : Z) (n k : Z) (g : Globals)
    : result unit * Globals :=
  match assert ((index_value BASE_SPROUT <? idx) && (idx <? MAX_NETWORK_UPGRADES)),
        index_of_value idx with
  | Ok _, Some i =>
    (Ok tt, set_EquihashUpgradeInfo
              (<[ i := {| EquihashInfo.N := n; EquihashInfo.K := k |} ]> (EquihashUpgradeInfo g)) g)
  | Ok _, None => (Err undefined_behaviour, g)
  | Err e, _ => (Err e, g)
  end.

End Process.

Arguments mainParams {BaseState} g.
Arguments testNetParams {BaseState} g.
Arguments regTestParams {BaseState} g.
Arguments pCurrentParams {BaseState} g.
Arguments EquihashUpgradeInfo {BaseState} g.
Arguments mapArgs {BaseState} g.
Arguments baseState {BaseState} g.
Arguments object {BaseState} g n.
Arguments Params_current {BaseState} g.
Arguments SelectParams {BaseState} SelectBaseParams SetRegTestCoinbaseMustBeShielded network g.
Arguments UpdateNetworkUpgradeParameters {BaseState} idx nActivationHeight g.
Arguments UpdateEquihashUpgradeParameters {BaseState} idx n k g.

(* ===================================================================== *)
(** ** The spec's formulas and well-formedness of inputs *)
(* ===================================================================== *)

(** Ceiling of [a / b] for positive [b]. *)
Definition ceil_div (a b : Z) : Z := - ((- a) / b).

(** The interval as the spec words it: [ceil(maxHeight / legacyListSize)]. *)
Definition spec_legacy_interval (maxHeight legacyListSize : Z) : Z :=
  ceil_div maxHeight legacyListSize.

(** The pre-fork address as the spec words it: the legacy entry at
    [floor(height' / interval)], re-encoded. *)
Definition spec_legacy_address (ZecToYec : CChainParams -> string -> string)
    (maxHeight : Z) (this : CChainParams) (height' : Z) : result string :=
  a ← at_index (vFoundersRewardAddress this)
        (height' / spec_legacy_interval maxHeight (size (vFoundersRewardAddress this)));
  mret (ZecToYec this a).

(** Every activation height is the NeverActive sentinel or a block
    height. *)
Definition schedule_ok (c : Consensus.Params) : Prop :=
  forall idx, NO_ACTIVATION_HEIGHT <= nActivationHeight (vUpgrades c idx).

(** A name that is none of the three known ones. *)
Definition unknown_chain (chain : string) : Prop :=
  chain <> "main" /\ chain <> "test" /\ chain <> "regtest".

(** Unfolding of the error monad. *)
Ltac unfold_result :=
  unfold mbind, result_bind, mret, result_ret, assert in *.

(* ===================================================================== *)
(** ** Sample inputs *)
(* ===================================================================== *)

(** A stand-in for the re-encoder: it tags the legacy string with the
    network it is re-encoded for. *)
Definition sample_ZecToYec (this : CChainParams) (s : string) : string :=
  strNetworkID this ++ ":" ++ s.

(** A network with the 48 legacy addresses of the main network and an
    upgrade schedule in which nothing but the base is active, to be used
    with a last founders-reward height of 480. *)
Definition sample_legacy_net : CChainParams :=
  {| strNetworkID := "regtest";
     consensus := consensus (CRegTestParams false);
     fZIP209Enabled := false;
     vFoundersRewardAddress := CMainParams_vFoundersRewardAddress;
     vYcashFoundersRewardAddress := CRegTestParams_vYcashFoundersRewardAddress |}.

Definition sample_GetLastFoundersRewardBlockHeight (c : Consensus.Params) (nHeight : Z) : Z := 480.

(** The same network with Blossom activating at height 100. *)
Definition sample_blossom_net : CChainParams :=
  set_consensus (set_nActivationHeight UPGRADE_BLOSSOM 100 (consensus sample_legacy_net))
                sample_legacy_net.

(** The regtest network with the Ycash fork activating at height 1000. *)
Definition sample_ycash_net : CChainParams :=
  set_consensus (set_nActivationHeight UPGRADE_YCASH 1000 (consensus (CRegTestParams false)))
                (CRegTestParams false).

(** An Equihash table in which the Ycash epoch sets N only and the
    Blossom epoch sets K only; the sentinel is 0. *)
Definition sample_DEFAULT_PARAMS : Z := 0.
Definition sample_EquihashUpgradeInfo (idx : UpgradeIndex) : EquihashInfo.t :=
  match idx with
  | UPGRADE_YCASH => {| EquihashInfo.N := 192; EquihashInfo.K := 0 |}
  | UPGRADE_BLOSSOM => {| EquihashInfo.N := 0; EquihashInfo.K := 7 |}
  | _ => {| EquihashInfo.N := 0; EquihashInfo.K := 0 |}
  end.

(** A process before any selection, with a base-parameter layer that
    accepts every name, and one in which the main network is selected. *)
Definition sample_SelectBaseParams (network : string) (b : unit) : result unit * unit :=
  (Ok tt, b).

Definition sample_SetRegTestCoinbaseMustBeShielded (this : CChainParams) : CChainParams :=
  set_consensus
    {| fCoinbaseMustBeShielded := true;
       nEquihashN := nEquihashN (consensus this);
       nEquihashK := nEquihashK (consensus this);
       vUpgrades := vUpgrades (consensus this) |} this.

Definition sample_globals : Globals unit :=
  {| mainParams := CMainParams;
     testNetParams := CTestNetParams;
     regTestParams := CRegTestParams false;
     pCurrentParams := None;
     EquihashUpgradeInfo := sample_EquihashUpgradeInfo;
     mapArgs := ∅;
     baseState := tt |}.

Definition sample_globals_main : Globals unit :=
  set_pCurrentParams unit (Some MainNet) sample_globals.

(* ===================================================================== *)
(** ** Addresses by index and the reward script *)
(* ===================================================================== *)

(** The alternatives of the variant [CTxDestination] this file tests for;
    a [CKeyID] or [CScriptID] is carried as the byte vector
    [ToByteVector] gives. *)
Definition uint160 : Type := list Byte.byte.

Inductive CTxDestination : Type :=
| CNoDestination
| CKeyID (id : uint160)
| CScriptID (id : uint160).

Definition ToByteVector (id : uint160) : list Byte.byte := id.

Definition IsValidDestination (dest : CTxDestination) : bool :=
  match dest with CNoDestination => false | _ => true end.
Definition IsKeyDestination (dest : CTxDestination) : bool :=
  match dest with CKeyID _ => true | _ => false end.
Definition IsScriptDestination (dest : CTxDestination) : bool :=
  match dest with CScriptID _ => true | _ => false end.

(** [std::get<CKeyID>] and [std::get<CScriptID>]; on another alternative
    they throw [std::bad_variant_access]. *)
Definition get_CKeyID (dest : CTxDestination) : result uint160 :=
  match dest with
  | CKeyID id => Ok id
  | _ => Err (runtime_error "bad_variant_access")
  end.
Definition get_CScriptID (dest : CTxDestination) : result uint160 :=
  match dest with
  | CScriptID id => Ok id
  | _ => Err (runtime_error "bad_variant_access")
  end.

(** A [CScript] as the sequence of what [operator<<] appended to it: an
    opcode, or a byte vector to push. *)
Inductive script_item : Type :=
| OP_DUP
| OP_HASH160
| OP_EQUALVERIFY
| OP_CHECKSIG
| OP_EQUAL
| Push (data : list Byte.byte).

Definition CScript : Type := list script_item.

(** [std::string::c_str] read back as a string: the characters before
    the first NUL. *)
Fixpoint c_str (s : string) : string :=
  match s with
  | EmptyString => EmptyString
  | String c r => if Ascii.eqb c Ascii.zero then EmptyString else String c (c_str r)
  end.

Section ByIndexAndScript.

Variable PRE_BLOSSOM_POW_TARGET_SPACING : Z.
Variable POST_BLOSSOM_POW_TARGET_SPACING : Z.
Variable GetLastFoundersRewardBlockHeight : Consensus.Params -> Z -> Z.
Variable ZecToYec : CChainParams -> string -> string.

(** [KeyIO(params).DecodeDestination] (key_io.cpp). *)
Variable DecodeDestination : CChainParams -> string -> CTxDestination.

(** [i < v.size()] and [v[i]] convert the [int] index to [size_t]. *)
Definition GetZcashFoundersRewardAddressAtIndex (this : CChainParams) (i : Z) : result string :=
  _ ← assert ((0 <=? i) && (size_t_of i <? size (vFoundersRewardAddress this)));
  a ← at_index (vFoundersRewardAddress this) (size_t_of i);
  mret (ZecToYec this a).

Definition GetYcashFoundersRewardAddressAtIndex (this : CChainParams) (i : Z) : result string :=
  _ ← assert ((0 <=? i) && (size_t_of i <? size (vYcashFoundersRewardAddress this)));
  at_index (vYcashFoundersRewardAddress this) (size_t_of i).

Definition GetFoundersRewardScriptAtHeight (this : CChainParams) (nHeight : Z) : result CScript :=
  if negb (NetworkUpgradeActive (GetConsensus this) nHeight UPGRADE_YCASH) then
    _ ← assert ((0 <? nHeight) &&
                (nHeight <=? GetLastFoundersRewardBlockHeight (consensus this) nHeight));
    a ← GetFoundersRewardAddressAtHeight PRE_BLOSSOM_POW_TARGET_SPACING
          POST_BLOSSOM_POW_TARGET_SPACING GetLastFoundersRewardBlockHeight ZecToYec this nHeight;
    let address := DecodeDestination this (c_str a) in
    _ ← assert (IsValidDestination address);
    _ ← assert (IsScriptDestination address);
    scriptID ← get_CScriptID address;
    mret [OP_HASH160; Push (ToByteVector scriptID); OP_EQUAL]
  else
    a ← GetFoundersRewardAddressAtHeight PRE_BLOSSOM_POW_TARGET_SPACING
          POST_BLOSSOM_POW_TARGET_SPACING GetLastFoundersRewardBlockHeight ZecToYec this nHeight;
    let address := DecodeDestination this (c_str a) in
    _ ← assert (IsValidDestination address);
    _ ← assert (IsKeyDestination address || IsScriptDestination address);
    if IsKeyDestination address then
      keyID ← get_CKeyID address;
      mret [OP_DUP; OP_HASH160; Push (ToByteVector keyID); OP_EQUALVERIFY; OP_CHECKSIG]
    else
      scriptID ← get_CScriptID address;
      mret [OP_HASH160; Push (ToByteVector scriptID); OP_EQUAL].

End ByIndexAndScript.

(** A stand-in decoder for the sample networks: a string that starts
    with "s" is a key address, one that starts with "r" (the tag of
    [sample_ZecToYec] on the sample networks) a script address, anything
    else is no destination. *)
Definition sample_DecodeDestination (this : CChainParams) (s : string) : CTxDestination :=
  if String.prefix "s" s then CKeyID (String.list_byte_of_string s)
  else if String.prefix "r" s then CScriptID (String.list_byte_of_string s)
  else CNoDestination.

(** The state [sample_globals] after a selection of the regtest network. *)
Definition sample_globals_regtest : Globals unit :=
  set_pCurrentParams unit (Some RegTest) sample_globals.

(** A process started with -developersetpoolsizezero. *)
Definition sample_globals_zip209 : Globals unit :=
  {| mainParams := CMainParams;
     testNetParams := CTestNetParams;
     regTestParams := CRegTestParams false;
     pCurrentParams := None;
     EquihashUpgradeInfo := sample_EquihashUpgradeInfo;
     mapArgs := {[ "-developersetpoolsizezero" := EmptyString ]};
     baseState := tt |}.

(** A network with the schedule of [sample_ycash_net] and no addresses. *)
Definition sample_empty_net : CChainParams :=
  {| strNetworkID := "regtest";
     consensus := consensus sample_ycash_net;
     fZIP209Enabled := false;
     vFoundersRewardAddress := [];
     vYcashFoundersRewardAddress := [] |}.

(* ===================================================================== *)
(** ** Arithmetic of the machine integers *)
(* ===================================================================== *)

Lemma int_wrap_id (z : Z) : is_int z -> int_wrap z = z.
Proof.
  unfold is_int, INT_MIN, INT_MAX, int_wrap. intros Hz.
  rewrite Z.mod_small by lia. lia.
Qed.

Lemma size_t_of_id (z : Z) : 0 <= z <= SIZE_MAX -> size_t_of z = z.
Proof.
  unfold size_t_of, SIZE_MAX. intros Hz. apply Z.mod_small. lia.
Qed.

Lemma size_nonempty {A} (v : list A) : v <> [] -> 0 < size v.
Proof. unfold size. destruct v; [congruence | simpl; lia]. Qed.

Lemma size_nonneg {A} (v : list A) : 0 <= size v.
Proof. unfold size. lia. Qed.

Lemma at_index_in_range {A} (v : list A) (i : Z) :
  0 <= i < size v -> exists a, v !! Z.to_nat i = Some a /\ at_index v i = Ok a.
Proof.
  unfold size, at_index. intros Hi.
  destruct (lookup_lt_is_Some_2 v (Z.to_nat i)) as [a Ha]; [lia |].
  exists a. rewrite Ha. auto.
Qed.

(** [ceil_div] is the ceiling: the least [q] with [a <= q * b]. *)
Lemma ceil_div_spec (a b : Z) :
  0 < b -> (ceil_div a b - 1) * b < a <= ceil_div a b * b.
Proof.
  intros Hb. unfold ceil_div.
  pose proof (Z.div_mod (- a) b ltac:(lia)) as E.
  pose proof (Z.mod_pos_bound (- a) b Hb) as R.
  nia.
Qed.

(** The interval of line 777 without the wrap-around, in the three forms
    floor((M + s) / s) = floor(M / s) + 1 = ceil((M + 1) / s). *)
Lemma interval_forms (M s : Z) :
  0 < s -> (M + s) / s = M / s + 1 /\ (M + s) / s = ceil_div (M + 1) s.
Proof.
  intros Hs.
  assert (E : (M + s) / s = M / s + 1).
  { replace (M + s) with (M + 1 * s) by lia. apply Z.div_add. lia. }
  split; [exact E |]. rewrite E.
  pose proof (ceil_div_spec (M + 1) s Hs) as C.
  pose proof (Z.div_mod M s ltac:(lia)) as D.
  pose proof (Z.mod_pos_bound M s Hs) as R.
  nia.
Qed.

(** The quotient by the interval stays below the list size. *)
Lemma rotation_index_bound (M s h : Z) :
  0 < s -> 0 < h <= M -> 0 <= h / ((M + s) / s) < s.
Proof.
  intros Hs Hh.
  destruct (interval_forms M s Hs) as [E _]. rewrite E.
  pose proof (Z.div_mod M s ltac:(lia)) as D.
  pose proof (Z.mod_pos_bound M s Hs) as R.
  assert (0 <= M / s) by (apply Z.div_pos; lia).
  split.
  - apply Z.div_pos; lia.
  - apply Z.div_lt_upper_bound; nia.
Qed.

Lemma NetworkUpgradeActive_true (c : Consensus.Params) (h : Z) (idx : UpgradeIndex) :
  NetworkUpgradeActive c h idx = true <->
  nActivationHeight (vUpgrades c idx) <> NO_ACTIVATION_HEIGHT /\
  nActivationHeight (vUpgrades c idx) <= h.
Proof.
  unfold NetworkUpgradeActive. cbv zeta.
  rewrite andb_true_iff, negb_true_iff, Z.eqb_neq, Z.leb_le. tauto.
Qed.

(** Once active, an upgrade stays active at every later height. *)
Lemma NetworkUpgradeActive_mono (c : Consensus.Params) (h1 h2 : Z) (idx : UpgradeIndex) :
  h1 <= h2 -> NetworkUpgradeActive c h1 idx = true -> NetworkUpgradeActive c h2 idx = true.
Proof.
  rewrite !NetworkUpgradeActive_true. intros Hle [Hn Ha]. split; [exact Hn | lia].
Qed.

Lemma NetworkUpgradeActive_false_earlier (c : Consensus.Params) (h1 h2 : Z) (idx : UpgradeIndex) :
  h1 <= h2 -> NetworkUpgradeActive c h2 idx = false -> NetworkUpgradeActive c h1 idx = false.
Proof.
  intros Hle H2. destruct (NetworkUpgradeActive c h1 idx) eqn:E; [| reflexivity].
  rewrite (NetworkUpgradeActive_mono c h1 h2 idx Hle E) in H2. discriminate.
Qed.

(* ===================================================================== *)
(** ** Founders reward rotation *)
(* ===================================================================== *)

Section RewardRotation.

Variable PRE POST : Z.
Variable GetLast : Consensus.Params -> Z -> Z.
Variable ZecToYec : CChainParams -> string -> string.

Local Abbreviation adjusted := (FounderAddressAdjustedHeight PRE POST).
Local Abbreviation interval := (legacyAddressChangeInterval GetLast).
Local Abbreviation index := (legacyIndex GetLast).
Local Abbreviation rotation := (legacyRotation GetLast ZecToYec).
Local Abbreviation address := (GetFoundersRewardAddressAtHeight PRE POST GetLast ZecToYec).
Local Abbreviation ratio := (BLOSSOM_POW_TARGET_SPACING_RATIO PRE POST).

Lemma ratio_pos : 0 < POST <= PRE -> 1 <= ratio.
Proof.
  intros H. unfold BLOSSOM_POW_TARGET_SPACING_RATIO.
  apply Z.div_le_lower_bound; lia.
Qed.

(** The adjusted height without wrap-around or truncation. *)
Lemma adjusted_eval (this : CChainParams) (h : Z) :
  is_int h -> schedule_ok (consensus this) -> 0 < POST <= PRE ->
  let B := nActivationHeight (vUpgrades (consensus this) UPGRADE_BLOSSOM) in
  if NetworkUpgradeActive (consensus this) h UPGRADE_BLOSSOM
  then adjusted this h = Ok (B + (h - B) / ratio) /\ 0 <= B /\ B <= B + (h - B) / ratio <= h
  else adjusted this h = Ok h.
Proof.
  intros Hh Hs Hr B. unfold FounderAddressAdjustedHeight. cbv zeta.
  destruct (NetworkUpgradeActive (consensus this) h UPGRADE_BLOSSOM) eqn:E; [| reflexivity].
  apply NetworkUpgradeActive_true in E. destruct E as [Hn Hle]. fold B in Hn, Hle.
  pose proof (Hs UPGRADE_BLOSSOM) as HB. fold B in HB.
  unfold NO_ACTIVATION_HEIGHT in *. unfold is_int, INT_MIN, INT_MAX in Hh.
  pose proof (ratio_pos Hr) as HR.
  assert (Hq : 0 <= (h - B) / ratio <= h - B).
  { split; [apply Z.div_pos; lia |]. apply Z.div_le_upper_bound; nia. }
  fold B. unfold int_div, int_sub, int_add.
  rewrite (int_wrap_id (h - B)) by (unfold is_int, INT_MIN, INT_MAX; lia).
  destruct (Z.eqb_spec ratio 0) as [E0 | _]; [lia |].
  unfold_result.
  rewrite Z.quot_div_nonneg by lia.
  rewrite (int_wrap_id ((h - B) / ratio)) by (unfold is_int, INT_MIN, INT_MAX; lia).
  rewrite int_wrap_id by (unfold is_int, INT_MIN, INT_MAX; lia).
  split; [reflexivity | lia].
Qed.

(** The interval and the index without wrap-around, on heights that pass
    the assertion of line 776. *)
Lemma index_eval (this : CChainParams) (h' : Z) :
  let M := GetLast (consensus this) 0 in
  let s := size (vFoundersRewardAddress this) in
  is_int M -> vector_ok (vFoundersRewardAddress this) ->
  vFoundersRewardAddress this <> [] ->
  0 < h' <= M ->
  interval this = Ok ((M + s) / s) /\ index this h' = Ok (h' / ((M + s) / s)).
Proof.
  intros M s HM Hv Hne Hh.
  pose proof (size_nonempty _ Hne) as Hs0. fold s in Hs0.
  unfold vector_ok, PTRDIFF_MAX in Hv. fold s in Hv.
  unfold is_int, INT_MIN, INT_MAX in HM.
  assert (EI : interval this = Ok ((M + s) / s)).
  { unfold legacyAddressChangeInterval. cbv zeta. fold M s.
    unfold size_add, size_div.
    rewrite (size_t_of_id M) by (unfold SIZE_MAX; lia).
    rewrite (Z.mod_small (M + s)) by lia.
    destruct (Z.eqb_spec s 0); [lia | reflexivity]. }
  split; [exact EI |].
  unfold legacyIndex. cbv zeta. fold M. rewrite EI.
  assert (Hc : (0 <? h') && (h' <=? M) = true).
  { apply andb_true_iff. split; [apply Z.ltb_lt | apply Z.leb_le]; lia. }
  rewrite Hc. unfold_result. unfold size_div.
  rewrite (size_t_of_id h') by (unfold SIZE_MAX; lia).
  destruct (interval_forms M s Hs0) as [E _].
  assert (0 <= M / s) by (apply Z.div_pos; lia).
  destruct (Z.eqb_spec ((M + s) / s) 0); [lia | reflexivity].
Qed.

(** A height outside (0, maxHeight] stops at the assertion. *)
Lemma index_outside (this : CChainParams) (h' : Z) :
  ~ (0 < h' <= GetLast (consensus this) 0) -> index this h' = Err assertion_failed.
Proof.
  intros Hh. unfold legacyIndex. cbv zeta.
  assert (Hc : (0 <? h') && (h' <=? GetLast (consensus this) 0) = false).
  { apply andb_false_iff.
    destruct (Z.ltb_spec 0 h'); [right | left; reflexivity].
    apply Z.leb_gt. lia. }
  rewrite Hc. reflexivity.
Qed.

(** The pre-fork branch: adjusted height, then the legacy rotation. *)
Lemma address_prefork (this : CChainParams) (h : Z) :
  NetworkUpgradeActive (consensus this) h UPGRADE_YCASH = false ->
  address this h = (h' ← adjusted this h; rotation this h').
Proof.
  intros E. unfold GetFoundersRewardAddressAtHeight, GetConsensus. rewrite E. reflexivity.
Qed.

(** The legacy rotation on a height that passes the assertion: the entry
    at the quotient by the interval, re-encoded. *)
Lemma rotation_eval (this : CChainParams) (h' : Z) :
  let M := GetLast (consensus this) 0 in
  let s := size (vFoundersRewardAddress this) in
  is_int M -> vector_ok (vFoundersRewardAddress this) ->
  vFoundersRewardAddress this <> [] ->
  0 < h' <= M ->
  exists a, vFoundersRewardAddress this !! Z.to_nat (h' / ((M + s) / s)) = Some a /\
            rotation this h' = Ok (ZecToYec this a).
Proof.
  intros M s HM Hv Hne Hh.
  destruct (index_eval this h' HM Hv Hne Hh) as [_ EI]. fold M s in EI.
  pose proof (rotation_index_bound M s h' (size_nonempty _ Hne) Hh) as Hb.
  destruct (at_index_in_range (vFoundersRewardAddress this) _ Hb) as (a & Ha & Hat).
  exists a. split; [exact Ha |].
  unfold legacyRotation. rewrite EI. unfold_result. rewrite Hat. reflexivity.
Qed.

(** C10: in the pre-fork regime, for an adjusted height h' with
    0 < h' <= preBlossomMaxHeight and any non-empty legacy list, the index
    floor(h' / ((preBlossomMaxHeight + size) / size)) the code computes is
    below the list size, so the access is in range and the call returns
    that entry re-encoded; at h' = preBlossomMaxHeight the ceil-based
    interval of the spec would give the index [size], one past the end,
    whenever the size divides the maximum height. *)
Theorem legacy_index_in_bounds (this : CChainParams) (h h' : Z) :
  let M := GetLast (consensus this) 0 in
  let s := size (vFoundersRewardAddress this) in
  NetworkUpgradeActive (consensus this) h UPGRADE_YCASH = false ->
  adjusted this h = Ok h' ->
  is_int M -> vector_ok (vFoundersRewardAddress this) ->
  vFoundersRewardAddress this <> [] ->
  0 < h' <= M ->
  (exists i a,
      index this h' = Ok i /\ i = h' / ((M + s) / s) /\ 0 <= i < s /\
      vFoundersRewardAddress this !! Z.to_nat i = Some a /\
      address this h = Ok (ZecToYec this a)) /\
  (0 <= M / ((M + s) / s) < s) /\
  ((s | M) -> M / spec_legacy_interval M s = s).
Proof.
  intros M s Hpre Hadj HM Hv Hne Hh.
  pose proof (size_nonempty _ Hne) as Hs. fold s in Hs.
  split; [| split].
  - destruct (index_eval this h' HM Hv Hne Hh) as [_ EI]. fold M s in EI.
    destruct (rotation_eval this h' HM Hv Hne Hh) as (a & Ha & Hr). fold M s in Ha.
    exists (h' / ((M + s) / s)), a.
    split; [exact EI |]. split; [reflexivity |].
    split; [apply rotation_index_bound; assumption |].
    split; [exact Ha |].
    rewrite (address_prefork this h Hpre), Hadj. exact Hr.
  - apply rotation_index_bound; lia.
  - intros [q Hq]. unfold spec_legacy_interval.
    pose proof (ceil_div_spec M s Hs) as C.
    assert (Eq : ceil_div M s = q) by nia.
    rewrite Eq, Hq, Z.mul_comm. apply Z.div_mul. nia.
Qed.

(** C1 (amended): in the pre-fork regime the interval is
    floor((maxHeight + listSize) / listSize), which is
    floor(maxHeight / listSize) + 1 = ceil((maxHeight + 1) / listSize) and
    not ceil(maxHeight / listSize); the index is floor(height' / interval)
    on the adjusted height, and the call returns the legacy entry at that
    index re-encoded by ZecToYec. *)
Theorem legacy_rotation_formula (this : CChainParams) (h h' : Z) :
  let M := GetLast (consensus this) 0 in
  let s := size (vFoundersRewardAddress this) in
  NetworkUpgradeActive (consensus this) h UPGRADE_YCASH = false ->
  adjusted this h = Ok h' ->
  is_int M -> vector_ok (vFoundersRewardAddress this) ->
  vFoundersRewardAddress this <> [] ->
  0 < h' <= M ->
  interval this = Ok (M / s + 1) /\
  M / s + 1 = ceil_div (M + 1) s /\
  index this h' = Ok (h' / (M / s + 1)) /\
  exists a, vFoundersRewardAddress this !! Z.to_nat (h' / (M / s + 1)) = Some a /\
            address this h = Ok (ZecToYec this a).
Proof.
  intros M s Hpre Hadj HM Hv Hne Hh.
  pose proof (size_nonempty _ Hne) as Hs. fold s in Hs.
  destruct (interval_forms M s Hs) as [E1 E2].
  destruct (index_eval this h' HM Hv Hne Hh) as [EI EX]. fold M s in EI, EX.
  destruct (rotation_eval this h' HM Hv Hne Hh) as (a & Ha & Hr). fold M s in Ha.
  rewrite E1 in EI, EX, Ha.
  split; [exact EI |]. split; [lia |]. split; [exact EX |].
  exists a. split; [exact Ha |].
  rewrite (address_prefork this h Hpre), Hadj. exact Hr.
Qed.

(** C3: in the pre-fork regime, when Blossom is active at the height the
    call replaces it by
    blossomActivationHeight + floor((height - blossomActivationHeight) / ratio),
    with ratio the integer quotient of the old by the new target spacing,
    and applies the legacy rotation to that height; when Blossom is not
    active the rotation is applied to the height itself. *)
Theorem adjusted_height_rescaling (this : CChainParams) (h : Z) :
  let B := nActivationHeight (vUpgrades (consensus this) UPGRADE_BLOSSOM) in
  is_int h -> schedule_ok (consensus this) -> 0 < POST <= PRE ->
  NetworkUpgradeActive (consensus this) h UPGRADE_YCASH = false ->
  address this h =
    rotation this (if NetworkUpgradeActive (consensus this) h UPGRADE_BLOSSOM
                   then B + (h - B) / (PRE / POST)
                   else h).
Proof.
  intros B Hh Hs Hr Hpre.
  rewrite (address_prefork this h Hpre).
  pose proof (adjusted_eval this h Hh Hs Hr) as A. cbv zeta in A. fold B in A.
  destruct (NetworkUpgradeActive (consensus this) h UPGRADE_BLOSSOM).
  - destruct A as [A _]. rewrite A. reflexivity.
  - rewrite A. reflexivity.
Qed.

(** The adjusted height does not decrease with the height. *)
Lemma adjusted_mono (this : CChainParams) (h1 h2 a1 a2 : Z) :
  is_int h1 -> is_int h2 -> schedule_ok (consensus this) -> 0 < POST <= PRE ->
  h1 <= h2 ->
  adjusted this h1 = Ok a1 -> adjusted this h2 = Ok a2 ->
  a1 <= a2.
Proof.
  intros H1 H2 Hs Hr Hle E1 E2.
  pose proof (adjusted_eval this h1 H1 Hs Hr) as A1.
  pose proof (adjusted_eval this h2 H2 Hs Hr) as A2.
  cbv zeta in A1, A2.
  pose proof (ratio_pos Hr) as HR.
  destruct (NetworkUpgradeActive (consensus this) h1 UPGRADE_BLOSSOM) eqn:B1.
  - rewrite (NetworkUpgradeActive_mono _ h1 h2 _ Hle B1) in A2.
    destruct A1 as [A1 _], A2 as [A2 _].
    rewrite E1 in A1. rewrite E2 in A2. inversion A1. inversion A2.
    apply Z.add_le_mono_l. apply Z.div_le_mono; lia.
  - rewrite E1 in A1. inversion A1. subst a1.
    destruct (NetworkUpgradeActive (consensus this) h2 UPGRADE_BLOSSOM) eqn:B2.
    + destruct A2 as [A2 [_ Hb]]. rewrite E2 in A2. inversion A2.
      apply NetworkUpgradeActive_true in B2. destruct B2 as [Hn HB2].
      destruct (Z.le_gt_cases (nActivationHeight (vUpgrades (consensus this) UPGRADE_BLOSSOM)) h1)
        as [Hc | Hc]; [| lia].
      assert (NetworkUpgradeActive (consensus this) h1 UPGRADE_BLOSSOM = true) as Habs
        by (apply NetworkUpgradeActive_true; split; assumption).
      rewrite Habs in B1. discriminate.
    + rewrite E2 in A2. inversion A2. lia.
Qed.

(** C5: for heights h1 <= h2 in the pre-fork regime whose adjusted
    heights lie in (0, maxHeight], the legacy-list index at h1 is at most
    the index at h2, and both calls return a re-encoded entry of the legacy
    founders list. *)
Theorem legacy_rotation_monotone (this : CChainParams) (h1 h2 a1 a2 : Z) :
  let M := GetLast (consensus this) 0 in
  is_int h1 -> is_int h2 -> schedule_ok (consensus this) -> 0 < POST <= PRE ->
  is_int M -> vector_ok (vFoundersRewardAddress this) ->
  vFoundersRewardAddress this <> [] ->
  h1 <= h2 ->
  NetworkUpgradeActive (consensus this) h1 UPGRADE_YCASH = false ->
  NetworkUpgradeActive (consensus this) h2 UPGRADE_YCASH = false ->
  adjusted this h1 = Ok a1 -> adjusted this h2 = Ok a2 ->
  0 < a1 <= M -> 0 < a2 <= M ->
  exists i1 i2 s1 s2,
    index this a1 = Ok i1 /\ index this a2 = Ok i2 /\ i1 <= i2 /\
    vFoundersRewardAddress this !! Z.to_nat i1 = Some s1 /\
    vFoundersRewardAddress this !! Z.to_nat i2 = Some s2 /\
    address this h1 = Ok (ZecToYec this s1) /\
    address this h2 = Ok (ZecToYec this s2).
Proof.
  intros M H1 H2 Hs Hr HM Hv Hne Hle P1 P2 E1 E2 R1 R2.
  pose proof (adjusted_mono this h1 h2 a1 a2 H1 H2 Hs Hr Hle E1 E2) as Ha.
  destruct (index_eval this a1 HM Hv Hne R1) as [_ I1].
  destruct (index_eval this a2 HM Hv Hne R2) as [_ I2].
  destruct (rotation_eval this a1 HM Hv Hne R1) as (s1 & L1 & A1).
  destruct (rotation_eval this a2 HM Hv Hne R2) as (s2 & L2 & A2).
  fold M in I1, I2, L1, L2.
  set (s := size (vFoundersRewardAddress this)) in *.
  pose proof (size_nonempty _ Hne) as Hs0. fold s in Hs0.
  destruct (interval_forms M s Hs0) as [EI _].
  assert (0 <= M / s) by (apply Z.div_pos; lia).
  exists (a1 / ((M + s) / s)), (a2 / ((M + s) / s)), s1, s2.
  split; [exact I1 |]. split; [exact I2 |].
  split; [apply Z.div_le_mono; lia |].
  split; [exact L1 |]. split; [exact L2 |].
  rewrite (address_prefork this h1 P1), E1.
  rewrite (address_prefork this h2 P2), E2.
  split; assumption.
Qed.

(** The adjusted height when Blossom is not active. *)
Lemma adjusted_inactive (this : CChainParams) (h : Z) :
  NetworkUpgradeActive (consensus this) h UPGRADE_BLOSSOM = false -> adjusted this h = Ok h.
Proof. intros E. unfold FounderAddressAdjustedHeight. cbv zeta. rewrite E. reflexivity. Qed.

(** C2 (amended): on a network with 48 legacy addresses and a last
    founders-reward height of 480, with neither the Ycash fork nor Blossom
    active, the interval is (480 + 48) / 48 = 11, and the calls at heights
    1, 240 and 480 return the legacy entries 0, 21 and 43, re-encoded. *)
Theorem legacy_scenario_48_480 (this : CChainParams) :
  size (vFoundersRewardAddress this) = 48 ->
  GetLast (consensus this) 0 = 480 ->
  NetworkUpgradeActive (consensus this) 480 UPGRADE_YCASH = false ->
  NetworkUpgradeActive (consensus this) 480 UPGRADE_BLOSSOM = false ->
  interval this = Ok 11 /\
  exists a0 a21 a43,
    vFoundersRewardAddress this !! 0%nat = Some a0 /\
    vFoundersRewardAddress this !! 21%nat = Some a21 /\
    vFoundersRewardAddress this !! 43%nat = Some a43 /\
    address this 1 = Ok (ZecToYec this a0) /\
    address this 240 = Ok (ZecToYec this a21) /\
    address this 480 = Ok (ZecToYec this a43).
Proof.
  intros Hsz HM Y B.
  assert (Hne : vFoundersRewardAddress this <> []).
  { intros E. rewrite E in Hsz. discriminate. }
  assert (Hv : vector_ok (vFoundersRewardAddress this)).
  { unfold vector_ok, PTRDIFF_MAX. rewrite Hsz. lia. }
  assert (Hi : is_int (GetLast (consensus this) 0)).
  { rewrite HM. unfold is_int, INT_MIN, INT_MAX. lia. }
  assert (step : forall h, 0 < h <= 480 ->
    exists a, vFoundersRewardAddress this !! Z.to_nat (h / 11) = Some a /\
              address this h = Ok (ZecToYec this a)).
  { intros h Hh.
    assert (Hh' : 0 < h <= GetLast (consensus this) 0) by (rewrite HM; lia).
    destruct (rotation_eval this h Hi Hv Hne Hh') as (a & Ha & Hr).
    rewrite HM, Hsz in Ha. change ((480 + 48) / 48) with 11 in Ha.
    exists a. split; [exact Ha |].
    rewrite address_prefork
      by (apply (NetworkUpgradeActive_false_earlier _ h 480); [lia | exact Y]).
    rewrite adjusted_inactive
      by (apply (NetworkUpgradeActive_false_earlier _ h 480); [lia | exact B]).
    exact Hr. }
  split.
  { destruct (index_eval this 1 Hi Hv Hne ltac:(rewrite HM; lia)) as [EI _].
    rewrite HM, Hsz in EI. exact EI. }
  destruct (step 1 ltac:(lia)) as (a0 & L0 & A0).
  destruct (step 240 ltac:(lia)) as (a21 & L21 & A21).
  destruct (step 480 ltac:(lia)) as (a43 & L43 & A43).
  exists a0, a21, a43. repeat split; assumption.
Qed.

(** C4: in the post-fork regime the index is
    floor((height - forkActivationHeight) / 17917) mod successorListSize,
    so the address at forkActivationHeight + k * 17917 * successorListSize is
    the first successor entry for every k >= 0 whose height is an int; with
    forkActivationHeight = 1000 and 48 entries, heights 1000 and
    1000 + 48 * 17917 both give that entry. *)
Theorem ycash_rotation_wraps (this : CChainParams) :
  let F := nActivationHeight (vUpgrades (consensus this) UPGRADE_YCASH) in
  let L := vYcashFoundersRewardAddress this in
  let n := size L in
  0 <= F -> L <> [] ->
  (forall h, F <= h <= INT_MAX ->
     NetworkUpgradeActive (consensus this) h UPGRADE_YCASH = true /\
     address this h = at_index L (((h - F) / 17917) mod n)) /\
  (forall k, 0 <= k -> F + k * 17917 * n <= INT_MAX ->
     address this (F + k * 17917 * n) = at_index L 0) /\
  (F = 1000 -> n = 48 ->
     address this 1000 = at_index L 0 /\
     address this (1000 + 48 * 17917) = at_index L 0) /\
  (exists a, L !! 0%nat = Some a /\ at_index L 0 = Ok a).
Proof.
  intros F L n HF Hne.
  pose proof (size_nonempty L Hne) as Hn. fold n in Hn.
  assert (G : forall h, F <= h <= INT_MAX ->
     NetworkUpgradeActive (consensus this) h UPGRADE_YCASH = true /\
     address this h = at_index L (((h - F) / 17917) mod n)).
  { intros h Hh.
    assert (Act : NetworkUpgradeActive (consensus this) h UPGRADE_YCASH = true).
    { apply NetworkUpgradeActive_true. fold F. unfold NO_ACTIVATION_HEIGHT. lia. }
    split; [exact Act |].
    unfold GetFoundersRewardAddressAtHeight, GetConsensus. rewrite Act. simpl negb. cbv iota.
    unfold ycashIndex. cbv zeta. fold F. unfold int_sub.
    unfold INT_MAX in Hh.
    rewrite (int_wrap_id (h - F)) by (unfold is_int, INT_MIN, INT_MAX; lia).
    rewrite (size_t_of_id (h - F)) by (unfold SIZE_MAX; lia).
    unfold size_div. simpl (17917 =? 0). cbv iota. unfold_result.
    fold L n. unfold size_rem.
    destruct (Z.eqb_spec n 0); [lia | reflexivity]. }
  assert (W : forall k, 0 <= k -> F + k * 17917 * n <= INT_MAX ->
     address this (F + k * 17917 * n) = at_index L 0).
  { intros k Hk Hmax.
    destruct (G (F + k * 17917 * n) ltac:(nia)) as [_ E]. rewrite E.
    replace (F + k * 17917 * n - F) with (k * n * 17917) by lia.
    rewrite Z.div_mul by lia. rewrite Z.mod_mul by lia. reflexivity. }
  split; [exact G |]. split; [exact W |]. split.
  - intros EF En. unfold INT_MAX in W. split.
    + specialize (W 0 ltac:(lia) ltac:(lia)).
      replace (F + 0 * 17917 * n) with 1000 in W by lia. exact W.
    + specialize (W 1 ltac:(lia) ltac:(lia)).
      replace (F + 1 * 17917 * n) with (1000 + 48 * 17917) in W by lia. exact W.
  - destruct (at_index_in_range L 0 ltac:(fold n; lia)) as (a & Ha & Hat).
    exists a. split; assumption.
Qed.

End RewardRotation.

(* ===================================================================== *)
(** ** Equihash parameters *)
(* ===================================================================== *)

Section Equihash.

Variable DEFAULT : Z.

(** C6: on the regtest network EquihashN and EquihashK return the
    network-wide nEquihashN and nEquihashK at every height, whatever the
    per-epoch table holds, so the pair is the same at all heights. *)
Theorem regtest_equihash_constant
    (info info' : UpgradeIndex -> EquihashInfo.t) (this : CChainParams) (h h' : Z) :
  strNetworkID this = "regtest" ->
  EquihashN DEFAULT info this h = nEquihashN (consensus this) /\
  EquihashK DEFAULT info this h = nEquihashK (consensus this) /\
  EquihashN DEFAULT info this h = EquihashN DEFAULT info' this h' /\
  EquihashK DEFAULT info this h = EquihashK DEFAULT info' this h'.
Proof.
  intros E. unfold EquihashN, EquihashK, GetConsensus. rewrite E. simpl.
  repeat split; reflexivity.
Qed.

(** C7: on a network other than regtest EquihashN and EquihashK read the
    table entry of CurrentEpoch(h); a stored N equal to the sentinel is
    replaced by the network-wide nEquihashN, and a stored K equal to the
    sentinel by nEquihashK, each field on its own: the N result does not
    depend on the stored K nor the K result on the stored N. *)
Theorem equihash_epoch_lookup
    (info : UpgradeIndex -> EquihashInfo.t) (this : CChainParams) (h : Z) :
  strNetworkID this <> "regtest" ->
  let e := info (CurrentEpoch h (consensus this)) in
  (EquihashInfo.N e = DEFAULT -> EquihashN DEFAULT info this h = nEquihashN (consensus this)) /\
  (EquihashInfo.N e <> DEFAULT -> EquihashN DEFAULT info this h = EquihashInfo.N e) /\
  (EquihashInfo.K e = DEFAULT -> EquihashK DEFAULT info this h = nEquihashK (consensus this)) /\
  (EquihashInfo.K e <> DEFAULT -> EquihashK DEFAULT info this h = EquihashInfo.K e) /\
  (forall info',
      EquihashInfo.N (info' (CurrentEpoch h (consensus this))) = EquihashInfo.N e ->
      EquihashN DEFAULT info' this h = EquihashN DEFAULT info this h) /\
  (forall info',
      EquihashInfo.K (info' (CurrentEpoch h (consensus this))) = EquihashInfo.K e ->
      EquihashK DEFAULT info' this h = EquihashK DEFAULT info this h).
Proof.
  intros Hnet e. unfold EquihashN, EquihashK, GetConsensus.
  apply String.eqb_neq in Hnet. rewrite Hnet. cbv zeta. fold e.
  split; [| split; [| split; [| split; [| split]]]].
  - intros E. rewrite E, Z.eqb_refl. reflexivity.
  - intros E. apply Z.eqb_neq in E. rewrite E. reflexivity.
  - intros E. rewrite E, Z.eqb_refl. reflexivity.
  - intros E. apply Z.eqb_neq in E. rewrite E. reflexivity.
  - intros info' E. rewrite E. reflexivity.
  - intros info' E. rewrite E. reflexivity.
Qed.

End Equihash.

(* ===================================================================== *)
(** ** Network selection and the schedule mutator *)
(* ===================================================================== *)

Lemma Params_known (n : Network) : Params (chain_name n) = Ok n.
Proof. destruct n; reflexivity. Qed.

Lemma Params_inv (chain : string) (n : Network) :
  Params chain = Ok n -> chain = chain_name n.
Proof.
  unfold Params.
  destruct (String.eqb_spec chain MAIN) as [E1 | _];
    [intros H; inversion H; subst; reflexivity |].
  destruct (String.eqb_spec chain TESTNET) as [E2 | _];
    [intros H; inversion H; subst; reflexivity |].
  destruct (String.eqb_spec chain REGTEST) as [E3 | _];
    [intros H; inversion H; subst; reflexivity |].
  discriminate.
Qed.

Lemma Params_unknown (chain : string) :
  unknown_chain chain ->
  Params chain = Err (runtime_error ("Params: Unknown chain " ++ chain ++ ".")).
Proof.
  intros (H1 & H2 & H3). unfold Params, MAIN, TESTNET, REGTEST.
  apply String.eqb_neq in H1, H2, H3. rewrite H1, H2, H3. reflexivity.
Qed.

Lemma index_of_value_valid (idx : Z) :
  0 <= idx < MAX_NETWORK_UPGRADES ->
  exists i, index_of_value idx = Some i /\ index_value i = idx.
Proof.
  unfold MAX_NETWORK_UPGRADES. intros Hidx.
  assert (Hcases : idx = 0 \/ idx = 1 \/ idx = 2 \/ idx = 3 \/ idx = 4 \/ idx = 5 \/
                   idx = 6 \/ idx = 7 \/ idx = 8 \/ idx = 9) by lia.
  repeat (destruct Hcases as [-> | Hcases]); try subst idx;
    (eexists; split; reflexivity).
Qed.

Section Selection.

Variable BaseState : Type.
Variable SelectBaseParams : string -> BaseState -> result unit * BaseState.
Variable SetShield : CChainParams -> CChainParams.

Local Abbreviation select := (SelectParams SelectBaseParams SetShield).

(** C8: Params(chain) returns the main, test or regtest object exactly
    for the names "main", "test" and "regtest" and throws the
    unknown-chain runtime error for every other name. SelectParams
    succeeds only for those names, and does so, binding pCurrentParams to
    the named object, whenever SelectBaseParams accepts the name; for every
    other name it fails, with the error of SelectBaseParams or else the
    unknown-chain error of Params, and pCurrentParams and the three
    parameter objects are as before. *)
Theorem select_params_by_name (network : string) (g : Globals BaseState) :
  (forall n, Params network = Ok n <-> network = chain_name n) /\
  (unknown_chain network ->
     Params network = Err (runtime_error ("Params: Unknown chain " ++ network ++ "."))) /\
  (forall g', select network g = (Ok tt, g') ->
     exists n, network = chain_name n /\ pCurrentParams g' = Some n) /\
  (forall n u b, network = chain_name n ->
     SelectBaseParams network (baseState g) = (Ok u, b) ->
     exists g', select network g = (Ok tt, g') /\ pCurrentParams g' = Some n) /\
  (unknown_chain network ->
     exists e g',
       select network g = (Err e, g') /\
       pCurrentParams g' = pCurrentParams g /\
       mainParams g' = mainParams g /\
       testNetParams g' = testNetParams g /\
       regTestParams g' = regTestParams g /\
       (e = runtime_error ("Params: Unknown chain " ++ network ++ ".") \/
        exists b, SelectBaseParams network (baseState g) = (Err e, b))).
Proof.
  split; [| split; [| split; [| split]]].
  - intros n. split; [apply Params_inv | intros ->; apply Params_known].
  - apply Params_unknown.
  - intros g'. unfold SelectParams.
    destruct (SelectBaseParams network (baseState g)) as [[u | e] b]; [| discriminate].
    destruct (Params network) as [p | e] eqn:EP; [| discriminate].
    intros H. inversion H as [Hg]. clear H Hg.
    exists p. split; [apply Params_inv; exact EP |].
    destruct (String.eqb network REGTEST && count _ "-regtestshieldcoinbase");
      destruct (String.eqb network REGTEST && count _ "-developersetpoolsizezero");
      reflexivity.
  - intros n u b -> EB. unfold SelectParams. rewrite EB, Params_known.
    eexists. split; [reflexivity |].
    destruct (String.eqb (chain_name n) REGTEST && count _ "-regtestshieldcoinbase");
      destruct (String.eqb (chain_name n) REGTEST && count _ "-developersetpoolsizezero");
      reflexivity.
  - intros Hu. unfold SelectParams.
    destruct (SelectBaseParams network (baseState g)) as [[u | e] b] eqn:EB.
    + rewrite (Params_unknown network Hu).
      eexists _, _. split; [reflexivity |].
      repeat (split; [reflexivity |]). left. reflexivity.
    + eexists _, _. split; [reflexivity |].
      repeat (split; [reflexivity |]). right. exists b. reflexivity.
Qed.

(** C9 (amended): UpdateNetworkUpgradeParameters does not look at the
    selected network. For an index above BASE_SPROUT and below
    MAX_NETWORK_UPGRADES it stores the activation height in the schedule of
    the regtest parameter object and returns, leaving every other entry of
    that schedule, the main and test parameter objects and pCurrentParams
    as they were; for any other index it stops at the assertion and changes
    nothing. *)
Theorem update_targets_regtest_only (idx h : Z) (g : Globals BaseState) :
  (index_value BASE_SPROUT < idx < MAX_NETWORK_UPGRADES ->
     exists i g',
       index_of_value idx = Some i /\ index_value i = idx /\
       UpdateNetworkUpgradeParameters idx h g = (Ok tt, g') /\
       nActivationHeight (vUpgrades (consensus (regTestParams g')) i) = h /\
       (forall j, j <> i ->
          vUpgrades (consensus (regTestParams g')) j = vUpgrades (consensus (regTestParams g)) j) /\
       mainParams g' = mainParams g /\
       testNetParams g' = testNetParams g /\
       pCurrentParams g' = pCurrentParams g) /\
  (~ (index_value BASE_SPROUT < idx < MAX_NETWORK_UPGRADES) ->
     UpdateNetworkUpgradeParameters idx h g = (Err assertion_failed, g)).
Proof.
  split.
  - intros Hidx.
    destruct (index_of_value_valid idx) as (i & Ei & Ev).
    { simpl (index_value BASE_SPROUT) in Hidx. lia. }
    assert (Hc : (index_value BASE_SPROUT <? idx) && (idx <? MAX_NETWORK_UPGRADES) = true).
    { apply andb_true_iff. split; apply Z.ltb_lt; lia. }
    unfold UpdateNetworkUpgradeParameters, CRegTestParams_UpdateNetworkUpgradeParameters.
    rewrite Hc. unfold_result. rewrite Ei.
    eexists i, _. split; [reflexivity |]. split; [exact Ev |].
    split; [reflexivity |].
    unfold set_regTestParams, set_consensus, set_nActivationHeight.
    cbn [regTestParams consensus vUpgrades mainParams testNetParams pCurrentParams].
    split; [rewrite fn_lookup_insert; reflexivity |].
    split; [intros j Hj; apply fn_lookup_insert_ne; congruence |].
    repeat split; reflexivity.
  - intros Hidx.
    unfold UpdateNetworkUpgradeParameters, CRegTestParams_UpdateNetworkUpgradeParameters.
    assert (Hc : (index_value BASE_SPROUT <? idx) && (idx <? MAX_NETWORK_UPGRADES) = false).
    { unfold MAX_NETWORK_UPGRADES in *. simpl (index_value BASE_SPROUT) in *.
      apply andb_false_iff.
      destruct (Z.ltb_spec 0 idx); [right | left; reflexivity].
      apply Z.ltb_ge. lia. }
    rewrite Hc. reflexivity.
Qed.

End Selection.

(* ===================================================================== *)
(** ** The theorems on the sample inputs *)
(* ===================================================================== *)

Local Abbreviation sample_address :=
  (GetFoundersRewardAddressAtHeight 150 75 sample_GetLastFoundersRewardBlockHeight sample_ZecToYec).

Lemma sample_schedule_ok (idx : UpgradeIndex) (h : Z) (c : Consensus.Params) :
  NO_ACTIVATION_HEIGHT <= h -> schedule_ok c -> schedule_ok (set_nActivationHeight idx h c).
Proof.
  intros Hh Hc j. unfold set_nActivationHeight. cbn [vUpgrades].
  destruct (decide (idx = j)) as [-> | Hne].
  - rewrite fn_lookup_insert. exact Hh.
  - rewrite fn_lookup_insert_ne by exact Hne. apply Hc.
Defined.

Lemma CRegTestParams_schedule_ok (b : bool) : schedule_ok (consensus (CRegTestParams b)).
Proof. intros idx. destruct idx; vm_compute; discriminate. Defined.

(** Blossom at 100, height 300: the adjusted height is 200 and the index
    200 / 11 = 18. *)
Lemma legacy_index_in_bounds_witness :
  exists i a,
    legacyIndex sample_GetLastFoundersRewardBlockHeight sample_blossom_net 200 = Ok i /\
    0 <= i < 48 /\
    vFoundersRewardAddress sample_blossom_net !! Z.to_nat i = Some a /\
    sample_address sample_blossom_net 300 = Ok (sample_ZecToYec sample_blossom_net a).
Proof.
  destruct (legacy_index_in_bounds 150 75 sample_GetLastFoundersRewardBlockHeight
              sample_ZecToYec sample_blossom_net 300 200)
    as [(i & a & H1 & _ & H3 & H4 & H5) _].
  - reflexivity.
  - reflexivity.
  - vm_compute. split; discriminate.
  - vm_compute. discriminate.
  - discriminate.
  - vm_compute. split; [reflexivity | discriminate].
  - exists i, a. repeat split; try assumption; apply H3.
Defined.

Lemma legacy_rotation_formula_witness :
  legacyAddressChangeInterval sample_GetLastFoundersRewardBlockHeight sample_legacy_net = Ok 11 /\
  legacyIndex sample_GetLastFoundersRewardBlockHeight sample_legacy_net 100 = Ok 9 /\
  exists a, vFoundersRewardAddress sample_legacy_net !! 9%nat = Some a /\
            sample_address sample_legacy_net 100 = Ok (sample_ZecToYec sample_legacy_net a).
Proof.
  destruct (legacy_rotation_formula 150 75 sample_GetLastFoundersRewardBlockHeight
              sample_ZecToYec sample_legacy_net 100 100)
    as (H1 & _ & H3 & a & H4 & H5).
  - reflexivity.
  - reflexivity.
  - vm_compute. split; discriminate.
  - vm_compute. discriminate.
  - discriminate.
  - vm_compute. split; [reflexivity | discriminate].
  - split; [exact H1 |]. split; [exact H3 |]. exists a. split; [exact H4 | exact H5].
Defined.

Lemma legacy_scenario_48_480_witness :
  legacyAddressChangeInterval sample_GetLastFoundersRewardBlockHeight sample_legacy_net = Ok 11 /\
  exists a0 a21 a43,
    vFoundersRewardAddress sample_legacy_net !! 0%nat = Some a0 /\
    vFoundersRewardAddress sample_legacy_net !! 21%nat = Some a21 /\
    vFoundersRewardAddress sample_legacy_net !! 43%nat = Some a43 /\
    sample_address sample_legacy_net 1 = Ok (sample_ZecToYec sample_legacy_net a0) /\
    sample_address sample_legacy_net 240 = Ok (sample_ZecToYec sample_legacy_net a21) /\
    sample_address sample_legacy_net 480 = Ok (sample_ZecToYec sample_legacy_net a43).
Proof.
  apply (legacy_scenario_48_480 150 75 sample_GetLastFoundersRewardBlockHeight
           sample_ZecToYec sample_legacy_net); reflexivity.
Defined.

Lemma adjusted_height_rescaling_witness :
  sample_address sample_blossom_net 300 =
  legacyRotation sample_GetLastFoundersRewardBlockHeight sample_ZecToYec sample_blossom_net
    (100 + (300 - 100) / (150 / 75)).
Proof.
  apply (adjusted_height_rescaling 150 75 sample_GetLastFoundersRewardBlockHeight
           sample_ZecToYec sample_blossom_net 300).
  - vm_compute. split; discriminate.
  - apply sample_schedule_ok; [vm_compute; discriminate | apply CRegTestParams_schedule_ok].
  - lia.
  - reflexivity.
Defined.

Lemma ycash_rotation_wraps_witness :
  sample_address sample_ycash_net 1000 = Ok "smDw2LWkeuJ1NGBDDZvdNbzY8A9D1mkkDZm" /\
  sample_address sample_ycash_net (1000 + 48 * 17917) = Ok "smDw2LWkeuJ1NGBDDZvdNbzY8A9D1mkkDZm" /\
  sample_address sample_ycash_net (1000 + 2 * 17917 * 48) = Ok "smDw2LWkeuJ1NGBDDZvdNbzY8A9D1mkkDZm".
Proof.
  destruct (ycash_rotation_wraps 150 75 sample_GetLastFoundersRewardBlockHeight
              sample_ZecToYec sample_ycash_net)
    as (_ & W & P & _).
  - vm_compute. discriminate.
  - discriminate.
  - destruct (P eq_refl eq_refl) as [P1 P2].
    split; [exact P1 |]. split; [exact P2 |].
    apply (W 2); vm_compute; discriminate.
Defined.

(** Heights 50 and 300 on either side of the Blossom activation at 100:
    adjusted heights 50 and 200, indices 4 and 18. *)
Lemma legacy_rotation_monotone_witness :
  exists i1 i2 s1 s2,
    legacyIndex sample_GetLastFoundersRewardBlockHeight sample_blossom_net 50 = Ok i1 /\
    legacyIndex sample_GetLastFoundersRewardBlockHeight sample_blossom_net 200 = Ok i2 /\
    i1 <= i2 /\
    vFoundersRewardAddress sample_blossom_net !! Z.to_nat i1 = Some s1 /\
    vFoundersRewardAddress sample_blossom_net !! Z.to_nat i2 = Some s2 /\
    sample_address sample_blossom_net 50 = Ok (sample_ZecToYec sample_blossom_net s1) /\
    sample_address sample_blossom_net 300 = Ok (sample_ZecToYec sample_blossom_net s2).
Proof.
  apply (legacy_rotation_monotone 150 75 sample_GetLastFoundersRewardBlockHeight
           sample_ZecToYec sample_blossom_net 50 300 50 200).
  - vm_compute. split; discriminate.
  - vm_compute. split; discriminate.
  - apply sample_schedule_ok; [vm_compute; discriminate | apply CRegTestParams_schedule_ok].
  - lia.
  - vm_compute. split; discriminate.
  - vm_compute. discriminate.
  - discriminate.
  - lia.
  - reflexivity.
  - reflexivity.
  - reflexivity.
  - reflexivity.
  - vm_compute. split; [reflexivity | discriminate].
  - vm_compute. split; [reflexivity | discriminate].
Defined.

Lemma regtest_equihash_constant_witness :
  EquihashN sample_DEFAULT_PARAMS sample_EquihashUpgradeInfo (CRegTestParams false) 0 = 48 /\
  EquihashK sample_DEFAULT_PARAMS sample_EquihashUpgradeInfo (CRegTestParams false) 0 = 5 /\
  EquihashN sample_DEFAULT_PARAMS sample_EquihashUpgradeInfo (CRegTestParams false) 0 =
    EquihashN sample_DEFAULT_PARAMS (fun _ => {| EquihashInfo.N := 96; EquihashInfo.K := 3 |})
              (CRegTestParams false) 5000 /\
  EquihashK sample_DEFAULT_PARAMS sample_EquihashUpgradeInfo (CRegTestParams false) 0 =
    EquihashK sample_DEFAULT_PARAMS (fun _ => {| EquihashInfo.N := 96; EquihashInfo.K := 3 |})
              (CRegTestParams false) 5000.
Proof.
  apply (regtest_equihash_constant sample_DEFAULT_PARAMS sample_EquihashUpgradeInfo
           (fun _ => {| EquihashInfo.N := 96; EquihashInfo.K := 3 |})
           (CRegTestParams false) 0 5000).
  reflexivity.
Defined.

(** Main network, height 600000, in the Ycash epoch: the table sets N = 192
    and leaves K to the default 9. *)
Lemma equihash_epoch_lookup_witness :
  EquihashN sample_DEFAULT_PARAMS sample_EquihashUpgradeInfo CMainParams 600000 = 192 /\
  EquihashK sample_DEFAULT_PARAMS sample_EquihashUpgradeInfo CMainParams 600000 = 9.
Proof.
  destruct (equihash_epoch_lookup sample_DEFAULT_PARAMS sample_EquihashUpgradeInfo
              CMainParams 600000)
    as (_ & HN & HK & _).
  - discriminate.
  - split; [apply HN; vm_compute; discriminate | apply HK; reflexivity].
Defined.

Lemma select_params_by_name_witness :
  (exists g', SelectParams sample_SelectBaseParams sample_SetRegTestCoinbaseMustBeShielded
                "test" sample_globals = (Ok tt, g') /\
              pCurrentParams g' = Some TestNet) /\
  (exists e g', SelectParams sample_SelectBaseParams sample_SetRegTestCoinbaseMustBeShielded
                  "mainnet" sample_globals_main = (Err e, g') /\
                pCurrentParams g' = Some MainNet).
Proof.
  split.
  - destruct (select_params_by_name unit sample_SelectBaseParams
                sample_SetRegTestCoinbaseMustBeShielded "test" sample_globals)
      as (_ & _ & _ & H & _).
    apply (H TestNet tt tt); reflexivity.
  - destruct (select_params_by_name unit sample_SelectBaseParams
                sample_SetRegTestCoinbaseMustBeShielded "mainnet" sample_globals_main)
      as (_ & _ & _ & _ & H).
    destruct H as (e & g' & H1 & H2 & _).
    + repeat split; discriminate.
    + exists e, g'. split; [exact H1 | exact H2].
Defined.

Lemma update_targets_regtest_only_witness :
  exists g',
    UpdateNetworkUpgradeParameters 5 100 sample_globals_main = (Ok tt, g') /\
    nActivationHeight (vUpgrades (consensus (regTestParams g')) UPGRADE_BLOSSOM) = 100 /\
    mainParams g' = CMainParams /\ pCurrentParams g' = Some MainNet.
Proof.
  destruct (update_targets_regtest_only unit 5 100 sample_globals_main) as [H _].
  destruct H as (i & g' & Hi & _ & HU & HA & _ & HM & _ & HP).
  - vm_compute. split; reflexivity.
  - exists g'. vm_compute in Hi. inversion Hi. subst i.
    split; [exact HU |]. split; [exact HA |]. split; [exact HM | exact HP].
Defined.

(* ===================================================================== *)
(** ** Where the code departs from the spec's wording *)
(* ===================================================================== *)

(** With 48 addresses and a last height of 480 the spec's interval is
    ceil(480 / 48) = 10 and its index at height 100 is 10; the code divides
    by 11 and returns entry 9. *)
Lemma legacy_interval_is_not_ceil :
  spec_legacy_interval 480 48 = 10 /\
  legacyAddressChangeInterval sample_GetLastFoundersRewardBlockHeight sample_legacy_net = Ok 11 /\
  sample_address sample_legacy_net 100 = Ok "regtest:t3RYnsc5nhEvKiva3ZPhfRSk7eyh1CrA6Rk" /\
  spec_legacy_address sample_ZecToYec 480 sample_legacy_net 100
    = Ok "regtest:t3Ut4KUq2ZSMTPNE67pBU5LqYCi2q36KpXQ" /\
  sample_address sample_legacy_net 100 <> spec_legacy_address sample_ZecToYec 480 sample_legacy_net 100.
Proof.
  split; [reflexivity |]. split; [reflexivity |].
  split; [reflexivity |]. split; [reflexivity |].
  vm_compute. discriminate.
Qed.

(** In the scenario of 48 addresses and a last height of 480 the calls at
    240 and 480 do not return entries 24 and 47. *)
Lemma scenario_240_is_not_entry_24 :
  size (vFoundersRewardAddress sample_legacy_net) = 48 /\
  sample_GetLastFoundersRewardBlockHeight (consensus sample_legacy_net) 0 = 480 /\
  ~ (exists a0 a24 a47,
       vFoundersRewardAddress sample_legacy_net !! 0%nat = Some a0 /\
       vFoundersRewardAddress sample_legacy_net !! 24%nat = Some a24 /\
       vFoundersRewardAddress sample_legacy_net !! 47%nat = Some a47 /\
       sample_address sample_legacy_net 1 = Ok (sample_ZecToYec sample_legacy_net a0) /\
       sample_address sample_legacy_net 240 = Ok (sample_ZecToYec sample_legacy_net a24) /\
       sample_address sample_legacy_net 480 = Ok (sample_ZecToYec sample_legacy_net a47)).
Proof.
  split; [reflexivity |]. split; [reflexivity |].
  intros (a0 & a24 & a47 & _ & H24 & _ & _ & H240 & _).
  vm_compute in H24. inversion H24. subst a24.
  vm_compute in H240. discriminate.
Qed.

(** With the main network selected, the call returns normally and the
    regtest schedule has changed. *)
Lemma update_applies_while_main_selected :
  pCurrentParams sample_globals_main = Some MainNet /\
  fst (UpdateNetworkUpgradeParameters 2 100 sample_globals_main) = Ok tt /\
  nActivationHeight
    (vUpgrades (consensus (regTestParams sample_globals_main)) UPGRADE_OVERWINTER)
    = NO_ACTIVATION_HEIGHT /\
  nActivationHeight
    (vUpgrades (consensus (regTestParams (snd (UpdateNetworkUpgradeParameters 2 100 sample_globals_main))))
               UPGRADE_OVERWINTER)
    = 100 /\
  ~ (exists e g', UpdateNetworkUpgradeParameters 2 100 sample_globals_main = (Err e, g')).
Proof.
  split; [reflexivity |]. split; [reflexivity |].
  split; [reflexivity |]. split; [reflexivity |].
  intros (e & g' & H). apply (f_equal fst) in H. simpl in H. discriminate.
Qed.

(* ===================================================================== *)
(** ** Further properties of the address rotation *)
(* ===================================================================== *)

Lemma div_block (a b q : Z) : 0 < b -> a / b = q <-> q * b <= a < (q + 1) * b.
Proof.
  intros Hb.
  pose proof (Z.div_mod a b ltac:(lia)) as D.
  pose proof (Z.mod_pos_bound a b Hb) as R.
  split.
  - intros <-. nia.
  - intros H. symmetry. apply (Z.div_unique a b q (a - q * b)); lia.
Qed.

Section RotationBlocks.

Variable PRE POST : Z.
Variable GetLast : Consensus.Params -> Z -> Z.
Variable ZecToYec : CChainParams -> string -> string.

Local Abbreviation adjusted := (FounderAddressAdjustedHeight PRE POST).
Local Abbreviation index := (legacyIndex GetLast).
Local Abbreviation rotation := (legacyRotation GetLast ZecToYec).
Local Abbreviation address := (GetFoundersRewardAddressAtHeight PRE POST GetLast ZecToYec).
Local Abbreviation ratio := (BLOSSOM_POW_TARGET_SPACING_RATIO PRE POST).

(** The post-fork branch on heights from the fork activation on. *)
Lemma address_postfork (this : CChainParams) (h : Z) :
  let F := nActivationHeight (vUpgrades (consensus this) UPGRADE_YCASH) in
  0 <= F -> F <= h <= INT_MAX ->
  NetworkUpgradeActive (consensus this) h UPGRADE_YCASH = true /\
  address this h =
    (j ← size_rem ((h - F) / 17917) (size (vYcashFoundersRewardAddress this));
     at_index (vYcashFoundersRewardAddress this) j).
Proof.
  intros F HF Hh.
  assert (Act : NetworkUpgradeActive (consensus this) h UPGRADE_YCASH = true).
  { apply NetworkUpgradeActive_true. fold F. unfold NO_ACTIVATION_HEIGHT. lia. }
  split; [exact Act |].
  unfold GetFoundersRewardAddressAtHeight, GetConsensus. rewrite Act. simpl negb. cbv iota.
  unfold ycashIndex. cbv zeta. fold F. unfold int_sub.
  unfold INT_MAX in Hh.
  rewrite (int_wrap_id (h - F)) by (unfold is_int, INT_MIN, INT_MAX; lia).
  rewrite (size_t_of_id (h - F)) by (unfold SIZE_MAX; lia).
  unfold size_div. simpl (17917 =? 0). cbv iota. reflexivity.
Qed.

Lemma address_postfork_nonempty (this : CChainParams) (h : Z) :
  let F := nActivationHeight (vUpgrades (consensus this) UPGRADE_YCASH) in
  let L := vYcashFoundersRewardAddress this in
  0 <= F -> F <= h <= INT_MAX -> L <> [] ->
  address this h = at_index L (((h - F) / 17917) mod size L) /\
  0 <= ((h - F) / 17917) mod size L < size L.
Proof.
  intros F L HF Hh Hne.
  destruct (address_postfork this h HF Hh) as [_ E]. fold F L in E.
  pose proof (size_nonempty L Hne) as Hn.
  split; [| apply Z.mod_pos_bound; exact Hn].
  rewrite E. unfold size_rem.
  destruct (Z.eqb_spec (size L) 0); [lia | reflexivity].
Qed.

(** X1: in the pre-fork regime a height whose adjusted value is not in
    (0, maxHeight] stops at the assertion of line 776 before any list
    access; in particular every height <= 0 does. *)
Theorem legacy_height_outside_asserts (this : CChainParams) (h : Z) :
  is_int h -> schedule_ok (consensus this) -> 0 < POST <= PRE ->
  NetworkUpgradeActive (consensus this) h UPGRADE_YCASH = false ->
  (forall h', adjusted this h = Ok h' -> ~ (0 < h' <= GetLast (consensus this) 0) ->
              address this h = Err assertion_failed) /\
  (h <= 0 -> address this h = Err assertion_failed) /\
  (GetLast (consensus this) 0 < h ->
   NetworkUpgradeActive (consensus this) h UPGRADE_BLOSSOM = false ->
   address this h = Err assertion_failed).
Proof.
  intros Hh Hs Hr Hpre.
  assert (G : forall h', adjusted this h = Ok h' -> ~ (0 < h' <= GetLast (consensus this) 0) ->
              address this h = Err assertion_failed).
  { intros h' Ea Hout. rewrite (address_prefork PRE POST GetLast ZecToYec this h Hpre), Ea.
    unfold_result. unfold legacyRotation. rewrite (index_outside GetLast this h' Hout).
    reflexivity. }
  split; [exact G |]. split.
  - intros Hle.
    pose proof (adjusted_eval PRE POST this h Hh Hs Hr) as A. cbv zeta in A.
    destruct (NetworkUpgradeActive (consensus this) h UPGRADE_BLOSSOM).
    + destruct A as (A & HB & Hb). apply (G _ A). lia.
    + apply (G _ A). lia.
  - intros Hgt Hb. apply (G h); [apply adjusted_inactive; exact Hb | lia].
Qed.

(** X2: an empty address list is not caught by any assertion: in the
    pre-fork regime a height that passes the assertion divides by the list
    size 0 (line 777), and in the post-fork regime the index is reduced
    modulo the list size 0 (line 788); both are undefined. *)
Theorem empty_list_is_undefined (this : CChainParams) (h : Z) :
  (forall h',
     NetworkUpgradeActive (consensus this) h UPGRADE_YCASH = false ->
     adjusted this h = Ok h' -> 0 < h' <= GetLast (consensus this) 0 ->
     vFoundersRewardAddress this = [] ->
     address this h = Err undefined_behaviour) /\
  (0 <= nActivationHeight (vUpgrades (consensus this) UPGRADE_YCASH) ->
   nActivationHeight (vUpgrades (consensus this) UPGRADE_YCASH) <= h <= INT_MAX ->
   vYcashFoundersRewardAddress this = [] ->
   address this h = Err undefined_behaviour).
Proof.
  split.
  - intros h' Hpre Ea Hin Hnil.
    rewrite (address_prefork PRE POST GetLast ZecToYec this h Hpre), Ea.
    unfold_result. unfold legacyRotation, legacyIndex, legacyAddressChangeInterval. cbv zeta.
    assert (Hc : (0 <? h') && (h' <=? GetLast (consensus this) 0) = true).
    { apply andb_true_iff. split; [apply Z.ltb_lt | apply Z.leb_le]; lia. }
    rewrite Hc, Hnil. reflexivity.
  - intros HF Hh Hnil.
    destruct (address_postfork this h HF Hh) as [_ E]. rewrite E, Hnil. reflexivity.
Qed.

(** X3: in the pre-fork regime the legacy entry q serves exactly the
    adjusted heights of the block q * interval <= h' < (q + 1) * interval,
    with interval = maxHeight / size + 1. *)
Theorem legacy_index_blocks (this : CChainParams) (h' q : Z) :
  let M := GetLast (consensus this) 0 in
  let s := size (vFoundersRewardAddress this) in
  is_int M -> vector_ok (vFoundersRewardAddress this) ->
  vFoundersRewardAddress this <> [] ->
  0 < h' <= M ->
  index this h' = Ok q <-> q * (M / s + 1) <= h' < (q + 1) * (M / s + 1).
Proof.
  intros M s HM Hv Hne Hh.
  destruct (index_eval GetLast this h' HM Hv Hne Hh) as [_ EI]. fold M s in EI.
  pose proof (size_nonempty _ Hne) as Hs. fold s in Hs.
  destruct (interval_forms M s Hs) as [E _]. rewrite E in EI. rewrite EI.
  assert (0 <= M / s) by (apply Z.div_pos; lia).
  rewrite <- (div_block h' (M / s + 1) q) by lia.
  split; [intros H1; inversion H1; reflexivity | intros ->; reflexivity].
Qed.

(** X4: when the list is no longer than maxHeight (what the constructors
    assert), the legacy indices returned over the heights (0, maxHeight] are
    exactly 0 .. maxHeight / interval, which is at most size - 1: entries
    above maxHeight / interval are never returned. *)
Theorem legacy_entries_used (this : CChainParams) :
  let M := GetLast (consensus this) 0 in
  let s := size (vFoundersRewardAddress this) in
  let I := M / s + 1 in
  is_int M -> vector_ok (vFoundersRewardAddress this) ->
  vFoundersRewardAddress this <> [] ->
  s <= M ->
  (forall h', 0 < h' <= M -> exists i, index this h' = Ok i /\ 0 <= i <= M / I) /\
  (forall q, 0 <= q <= M / I -> exists h', 0 < h' <= M /\ index this h' = Ok q) /\
  M / I <= s - 1.
Proof.
  intros M s I HM Hv Hne Hle.
  pose proof (size_nonempty _ Hne) as Hs. fold s in Hs.
  destruct (interval_forms M s Hs) as [E _].
  assert (HI : 2 <= I).
  { unfold I. assert (1 <= M / s) by (apply Z.div_le_lower_bound; lia). lia. }
  assert (Ev : forall h', 0 < h' <= M -> index this h' = Ok (h' / I)).
  { intros h' Hh. destruct (index_eval GetLast this h' HM Hv Hne Hh) as [_ EI].
    fold M s in EI. rewrite E in EI. exact EI. }
  split; [| split].
  - intros h' Hh. exists (h' / I). split; [apply Ev; exact Hh |].
    split; [apply Z.div_pos; lia | apply Z.div_le_mono; lia].
  - intros q Hq.
    destruct (Z.eq_dec q 0) as [-> | Hq0].
    + exists 1. split; [lia |]. rewrite Ev by lia. rewrite Z.div_small by lia. reflexivity.
    + exists (q * I).
      pose proof (Z.mul_div_le M I ltac:(lia)) as Hm.
      assert (Hr : 0 < q * I <= M) by nia.
      split; [exact Hr |]. rewrite (Ev _ Hr). rewrite Z.div_mul by lia. reflexivity.
  - pose proof (rotation_index_bound M s M Hs ltac:(lia)) as Hb.
    rewrite E in Hb. fold I in Hb. lia.
Qed.

(** X5: past the Blossom activation the adjusted height advances by one
    for every [ratio] blocks: the adjusted height of h + ratio is one more
    than that of h. *)
Theorem adjusted_height_step (this : CChainParams) (h : Z) :
  is_int h -> schedule_ok (consensus this) -> 0 < POST <= PRE ->
  NetworkUpgradeActive (consensus this) h UPGRADE_BLOSSOM = true ->
  h + ratio <= INT_MAX ->
  exists a, adjusted this h = Ok a /\ adjusted this (h + ratio) = Ok (a + 1).
Proof.
  intros Hh Hs Hr Act Hmax.
  pose proof (ratio_pos PRE POST Hr) as HR.
  assert (Hh2 : is_int (h + ratio)) by (unfold is_int, INT_MIN, INT_MAX in *; lia).
  pose proof (adjusted_eval PRE POST this h Hh Hs Hr) as A1.
  pose proof (adjusted_eval PRE POST this (h + ratio) Hh2 Hs Hr) as A2.
  cbv zeta in A1, A2.
  rewrite Act in A1.
  rewrite (NetworkUpgradeActive_mono _ h (h + ratio) _ ltac:(lia) Act) in A2.
  destruct A1 as [A1 _], A2 as [A2 _].
  eexists. split; [exact A1 |]. rewrite A2. f_equal.
  set (B := nActivationHeight (vUpgrades (consensus this) UPGRADE_BLOSSOM)).
  replace (h + ratio - B) with (h - B + 1 * ratio) by lia.
  rewrite Z.div_add by lia. lia.
Qed.

(** X6: the adjusted height is defined for every int height, never
    exceeds the height, equals it when Blossom is not active or when the
    ratio is 1, and once Blossom is active stays at or above the Blossom
    activation height, which it equals at the activation height itself. *)
Theorem adjusted_height_bounds (this : CChainParams) (h : Z) :
  let B := nActivationHeight (vUpgrades (consensus this) UPGRADE_BLOSSOM) in
  is_int h -> schedule_ok (consensus this) -> 0 < POST <= PRE ->
  exists a,
    adjusted this h = Ok a /\ a <= h /\
    (NetworkUpgradeActive (consensus this) h UPGRADE_BLOSSOM = false -> a = h) /\
    (NetworkUpgradeActive (consensus this) h UPGRADE_BLOSSOM = true ->
       B <= a /\ (h = B -> a = B) /\ (ratio = 1 -> a = h)).
Proof.
  intros B Hh Hs Hr.
  pose proof (adjusted_eval PRE POST this h Hh Hs Hr) as A. cbv zeta in A. fold B in A.
  destruct (NetworkUpgradeActive (consensus this) h UPGRADE_BLOSSOM).
  - destruct A as (A & HB & Hb). eexists. split; [exact A |].
    split; [lia |]. split; [discriminate |]. intros _. split; [lia |]. split.
    + intros ->. rewrite Z.sub_diag. rewrite Z.div_0_l by (pose proof (ratio_pos PRE POST Hr); lia). lia.
    + intros ->. rewrite Z.div_1_r. lia.
  - exists h. split; [exact A |]. split; [lia |]. split; [reflexivity | discriminate].
Qed.

(** X7: in the post-fork regime, with a non-empty successor list, the
    call returns for every int height from the fork activation on, and what
    it returns is an entry of the successor list as stored (no assertion, no
    re-encoding). *)
Theorem ycash_address_total (this : CChainParams) (h : Z) :
  let F := nActivationHeight (vUpgrades (consensus this) UPGRADE_YCASH) in
  let L := vYcashFoundersRewardAddress this in
  0 <= F -> F <= h <= INT_MAX -> L <> [] ->
  exists a, address this h = Ok a /\ a ∈ L /\
            L !! Z.to_nat (((h - F) / 17917) mod size L) = Some a.
Proof.
  intros F L HF Hh Hne.
  destruct (address_postfork_nonempty this h HF Hh Hne) as [E Hb]. fold F L in E, Hb.
  destruct (at_index_in_range L _ Hb) as (a & Ha & Hat).
  exists a. split; [rewrite E; exact Hat |]. split; [| exact Ha].
  apply list_elem_of_lookup. eexists. exact Ha.
Qed.

(** X8: the post-fork rotation is periodic: adding any multiple of
    17917 * size to a post-fork height does not change the address. *)
Theorem ycash_rotation_periodic (this : CChainParams) (h k : Z) :
  let F := nActivationHeight (vUpgrades (consensus this) UPGRADE_YCASH) in
  let L := vYcashFoundersRewardAddress this in
  0 <= F -> F <= h -> 0 <= k -> h + k * (17917 * size L) <= INT_MAX -> L <> [] ->
  address this (h + k * (17917 * size L)) = address this h.
Proof.
  intros F L HF Hh Hk Hmax Hne.
  pose proof (size_nonempty L Hne) as Hn.
  assert (Hh1 : F <= h <= INT_MAX) by nia.
  assert (Hh2 : F <= h + k * (17917 * size L) <= INT_MAX) by nia.
  destruct (address_postfork_nonempty this h HF Hh1 Hne) as [E1 _].
  destruct (address_postfork_nonempty this _ HF Hh2 Hne) as [E2 _].
  fold F L in E1, E2. rewrite E1, E2.
  replace (h + k * (17917 * size L) - F) with (h - F + (k * size L) * 17917) by lia.
  rewrite Z.div_add by lia. rewrite Z_mod_plus_full. reflexivity.
Qed.

(** X9: in the post-fork regime two heights in the same block of 17917
    heights counted from the fork activation get the same address, and the
    height 17917 later gets the next entry of the successor list, the first
    one after the last. *)
Theorem ycash_rotation_blocks (this : CChainParams) (h1 h2 : Z) :
  let F := nActivationHeight (vUpgrades (consensus this) UPGRADE_YCASH) in
  let L := vYcashFoundersRewardAddress this in
  0 <= F -> F <= h1 <= INT_MAX -> F <= h2 <= INT_MAX -> L <> [] ->
  ((h1 - F) / 17917 = (h2 - F) / 17917 -> address this h1 = address this h2) /\
  (h2 = h1 + 17917 ->
   address this h2 = at_index L ((((h1 - F) / 17917) mod size L + 1) mod size L)).
Proof.
  intros F L HF H1 H2 Hne.
  pose proof (size_nonempty L Hne) as Hn.
  destruct (address_postfork_nonempty this h1 HF H1 Hne) as [E1 _].
  destruct (address_postfork_nonempty this h2 HF H2 Hne) as [E2 _].
  fold F L in E1, E2. rewrite E1, E2. split.
  - intros ->. reflexivity.
  - intros ->.
    replace (h1 + 17917 - F) with (h1 - F + 1 * 17917) by lia.
    rewrite Z.div_add by lia. rewrite Z.add_mod_idemp_l by lia. reflexivity.
Qed.

(** X10: on the main and the test network the Ycash fork activates before
    Blossom, so at every pre-fork height Blossom is inactive: the rescaling
    branch is never taken and the legacy rotation is applied to the raw
    height. *)
Theorem shipped_networks_never_rescale (this : CChainParams) (h : Z) :
  this = CMainParams \/ this = CTestNetParams ->
  NetworkUpgradeActive (consensus this) h UPGRADE_YCASH = false ->
  NetworkUpgradeActive (consensus this) h UPGRADE_BLOSSOM = false /\
  adjusted this h = Ok h /\
  address this h = rotation this h.
Proof.
  intros Hnet Hpre.
  assert (Hb : NetworkUpgradeActive (consensus this) h UPGRADE_BLOSSOM = false).
  { destruct (NetworkUpgradeActive (consensus this) h UPGRADE_BLOSSOM) eqn:EB; [| reflexivity].
    apply NetworkUpgradeActive_true in EB. destruct EB as [_ EB].
    assert (NetworkUpgradeActive (consensus this) h UPGRADE_YCASH = true) as Habs.
    { apply NetworkUpgradeActive_true.
      destruct Hnet as [-> | ->]; simpl in *; unfold NO_ACTIVATION_HEIGHT; lia. }
    rewrite Habs in Hpre. discriminate. }
  split; [exact Hb |].
  pose proof (adjusted_inactive PRE POST this h Hb) as Ea.
  split; [exact Ea |].
  rewrite (address_prefork PRE POST GetLast ZecToYec this h Hpre), Ea. reflexivity.
Qed.

(** X11: the two lookups by index return the entry (the legacy one
    re-encoded) for an index in [0, size) and stop at their assertion for
    every other int index; no index reaches an out-of-range access. *)
Theorem address_at_index_bounds (this : CChainParams) (i : Z) :
  is_int i ->
  (0 <= i < size (vFoundersRewardAddress this) ->
     exists a, vFoundersRewardAddress this !! Z.to_nat i = Some a /\
               GetZcashFoundersRewardAddressAtIndex ZecToYec this i = Ok (ZecToYec this a)) /\
  (~ (0 <= i < size (vFoundersRewardAddress this)) ->
     GetZcashFoundersRewardAddressAtIndex ZecToYec this i = Err assertion_failed) /\
  (0 <= i < size (vYcashFoundersRewardAddress this) ->
     exists a, vYcashFoundersRewardAddress this !! Z.to_nat i = Some a /\
               GetYcashFoundersRewardAddressAtIndex this i = Ok a) /\
  (~ (0 <= i < size (vYcashFoundersRewardAddress this)) ->
     GetYcashFoundersRewardAddressAtIndex this i = Err assertion_failed).
Proof.
  intros Hi. unfold is_int, INT_MIN, INT_MAX in Hi.
  assert (In_ok : forall (v : list string), 0 <= i < size v ->
            (0 <=? i) && (size_t_of i <? size v) = true /\ size_t_of i = i).
  { intros v Hr. rewrite (size_t_of_id i) by (unfold SIZE_MAX; lia).
    split; [| reflexivity]. apply andb_true_iff. split; [apply Z.leb_le | apply Z.ltb_lt]; lia. }
  assert (Out : forall (v : list string), ~ (0 <= i < size v) ->
            (0 <=? i) && (size_t_of i <? size v) = false).
  { intros v Hr. apply andb_false_iff.
    destruct (Z.leb_spec 0 i); [right | left; reflexivity].
    rewrite (size_t_of_id i) by (unfold SIZE_MAX; lia). apply Z.ltb_ge. lia. }
  unfold GetZcashFoundersRewardAddressAtIndex, GetYcashFoundersRewardAddressAtIndex.
  split; [| split; [| split]].
  - intros Hr. destruct (In_ok _ Hr) as [Hc Es]. rewrite Hc, Es.
    destruct (at_index_in_range _ i Hr) as (a & Ha & Hat).
    exists a. split; [exact Ha |]. unfold_result. rewrite Hat. reflexivity.
  - intros Hr. rewrite (Out _ Hr). reflexivity.
  - intros Hr. destruct (In_ok _ Hr) as [Hc Es]. rewrite Hc, Es.
    destruct (at_index_in_range _ i Hr) as (a & Ha & Hat).
    exists a. split; [exact Ha |]. unfold_result. exact Hat.
  - intros Hr. rewrite (Out _ Hr). reflexivity.
Qed.

(** X12: the lookup by height agrees with the lookup by index: a
    pre-fork call returns what GetZcashFoundersRewardAddressAtIndex returns
    at the legacy index of the adjusted height, and a post-fork call what
    GetYcashFoundersRewardAddressAtIndex returns at
    floor((height - forkActivationHeight) / 17917) mod size. *)
Theorem height_lookup_is_index_lookup (this : CChainParams) (h : Z) :
  let F := nActivationHeight (vUpgrades (consensus this) UPGRADE_YCASH) in
  (forall h' i,
     NetworkUpgradeActive (consensus this) h UPGRADE_YCASH = false ->
     adjusted this h = Ok h' ->
     is_int (GetLast (consensus this) 0) -> vector_ok (vFoundersRewardAddress this) ->
     vFoundersRewardAddress this <> [] ->
     0 < h' <= GetLast (consensus this) 0 ->
     index this h' = Ok i ->
     address this h = GetZcashFoundersRewardAddressAtIndex ZecToYec this i) /\
  (0 <= F -> F <= h <= INT_MAX -> vYcashFoundersRewardAddress this <> [] ->
   address this h =
     GetYcashFoundersRewardAddressAtIndex this
       (((h - F) / 17917) mod size (vYcashFoundersRewardAddress this))).
Proof.
  intros F. split.
  - intros h' i Hpre Ea HM Hv Hne Hh Ei.
    set (M := GetLast (consensus this) 0) in *.
    set (s := size (vFoundersRewardAddress this)) in *.
    destruct (index_eval GetLast this h' HM Hv Hne Hh) as [_ EI]. fold M s in EI.
    rewrite EI in Ei. inversion Ei as [Hi]. clear Ei.
    pose proof (rotation_index_bound M s h' (size_nonempty _ Hne) Hh) as Hb.
    rewrite (address_prefork PRE POST GetLast ZecToYec this h Hpre), Ea.
    unfold_result. unfold legacyRotation. rewrite EI. unfold_result.
    unfold GetZcashFoundersRewardAddressAtIndex. unfold_result. fold s.
    unfold vector_ok, PTRDIFF_MAX in Hv. fold s in Hv.
    rewrite (size_t_of_id (h' / ((M + s) / s))) by (unfold SIZE_MAX; lia).
    assert (Hc : (0 <=? h' / ((M + s) / s)) && (h' / ((M + s) / s) <? s) = true).
    { apply andb_true_iff. split; [apply Z.leb_le | apply Z.ltb_lt]; lia. }
    rewrite Hc. reflexivity.
  - intros HF Hh Hne.
    destruct (address_postfork_nonempty this h HF Hh Hne) as [E Hb]. fold F in E, Hb.
    rewrite E. unfold GetYcashFoundersRewardAddressAtIndex. unfold_result.
    set (j := ((h - F) / 17917) mod size (vYcashFoundersRewardAddress this)) in *.
    assert (Hj : j <= (h - F) / 17917).
    { unfold j. apply Z.mod_le; [apply Z.div_pos; lia | lia]. }
    assert (Hq : (h - F) / 17917 <= h - F).
    { apply Z.div_le_upper_bound; [lia |]. lia. }
    unfold INT_MAX in Hh.
    rewrite (size_t_of_id j) by (unfold SIZE_MAX; lia).
    assert (Hc : (0 <=? j) && (j <? size (vYcashFoundersRewardAddress this)) = true).
    { apply andb_true_iff. split; [apply Z.leb_le | apply Z.ltb_lt]; lia. }
    rewrite Hc. reflexivity.
Qed.

End RotationBlocks.

(* ===================================================================== *)
(** ** The reward script *)
(* ===================================================================== *)

Section RewardScript.

Variable PRE POST : Z.
Variable GetLast : Consensus.Params -> Z -> Z.
Variable ZecToYec : CChainParams -> string -> string.
Variable Decode : CChainParams -> string -> CTxDestination.

Local Abbreviation address := (GetFoundersRewardAddressAtHeight PRE POST GetLast ZecToYec).
Local Abbreviation script := (GetFoundersRewardScriptAtHeight PRE POST GetLast ZecToYec Decode).
Local Abbreviation P2SH id := [OP_HASH160; Push id; OP_EQUAL].
Local Abbreviation P2PKH id := [OP_DUP; OP_HASH160; Push id; OP_EQUALVERIFY; OP_CHECKSIG].

(** The address lookup ends in a value, a failed assertion or an undefined
    operation; it throws nothing. *)
Lemma address_never_throws (this : CChainParams) (h : Z) (what : string) :
  address this h <> Err (runtime_error what).
Proof.
  unfold GetFoundersRewardAddressAtHeight, FounderAddressAdjustedHeight, legacyRotation,
    legacyIndex, legacyAddressChangeInterval, ycashIndex, int_div, size_div, size_rem, at_index.
  unfold_result. cbv zeta.
  repeat case_match; congruence.
Qed.

(** X13: a script is returned only for a height at which the address
    lookup succeeds, and it pays to that address: it is the pay-to-script-hash
    script of the script id the address decodes to or, post-fork only, the
    pay-to-pubkey-hash script of the key id it decodes to; a pre-fork
    script is returned only for 0 < height <= GetLastFoundersRewardBlockHeight(height). *)
Theorem script_matches_address (this : CChainParams) (h : Z) (s : CScript) :
  script this h = Ok s ->
  exists a,
    address this h = Ok a /\
    ((exists id, Decode this (c_str a) = CScriptID id /\ s = P2SH id) \/
     (NetworkUpgradeActive (consensus this) h UPGRADE_YCASH = true /\
      exists id, Decode this (c_str a) = CKeyID id /\ s = P2PKH id)) /\
    (NetworkUpgradeActive (consensus this) h UPGRADE_YCASH = false ->
     0 < h <= GetLast (consensus this) h).
Proof.
  unfold GetFoundersRewardScriptAtHeight, GetConsensus.
  destruct (NetworkUpgradeActive (consensus this) h UPGRADE_YCASH) eqn:Act; simpl negb; cbv iota.
  - destruct (address this h) as [a | e]; [| discriminate].
    unfold_result. cbv zeta.
    destruct (Decode this (c_str a)) as [| id | id] eqn:ED; simpl; [discriminate | |].
    + intros H. inversion H. exists a. split; [reflexivity |].
      split; [| discriminate]. right. split; [reflexivity |]. exists id. split; [exact ED | subst s; reflexivity].
    + intros H. inversion H. exists a. split; [reflexivity |].
      split; [| discriminate]. left. exists id. split; [exact ED | subst s; reflexivity].
  - unfold_result.
    destruct ((0 <? h) && (h <=? GetLast (consensus this) h)) eqn:Hc; [| discriminate].
    apply andb_true_iff in Hc. destruct Hc as [H1 H2].
    apply Z.ltb_lt in H1. apply Z.leb_le in H2.
    destruct (address this h) as [a | e]; [| discriminate].
    cbv zeta.
    destruct (Decode this (c_str a)) as [| id | id] eqn:ED; simpl; [discriminate | discriminate |].
    intros H. inversion H. exists a. split; [reflexivity |].
    split; [| intros _; lia]. left. exists id. split; [exact ED | subst s; reflexivity].
Qed.

(** X14: which script a height with address [a] gets. Pre-fork, for
    0 < height <= GetLastFoundersRewardBlockHeight(height): the
    pay-to-script-hash script when [a] decodes to a script id, a failed
    assertion when it decodes to a key id or to nothing; outside that range
    the first assertion fails whatever the address. Post-fork: the
    pay-to-pubkey-hash script for a key id, the pay-to-script-hash script for
    a script id, a failed assertion when [a] does not decode. *)
Theorem script_by_destination (this : CChainParams) (h : Z) (a : string) :
  address this h = Ok a ->
  (NetworkUpgradeActive (consensus this) h UPGRADE_YCASH = false ->
   0 < h <= GetLast (consensus this) h ->
   script this h = match Decode this (c_str a) with
                   | CScriptID id => Ok (P2SH id)
                   | _ => Err assertion_failed
                   end) /\
  (NetworkUpgradeActive (consensus this) h UPGRADE_YCASH = false ->
   ~ (0 < h <= GetLast (consensus this) h) ->
   script this h = Err assertion_failed) /\
  (NetworkUpgradeActive (consensus this) h UPGRADE_YCASH = true ->
   script this h = match Decode this (c_str a) with
                   | CKeyID id => Ok (P2PKH id)
                   | CScriptID id => Ok (P2SH id)
                   | CNoDestination => Err assertion_failed
                   end).
Proof.
  intros Ea. unfold GetFoundersRewardScriptAtHeight, GetConsensus.
  split; [| split].
  - intros Act Hr. rewrite Act. simpl negb. cbv iota.
    assert (Hc : (0 <? h) && (h <=? GetLast (consensus this) h) = true).
    { apply andb_true_iff. split; [apply Z.ltb_lt | apply Z.leb_le]; lia. }
    rewrite Hc, Ea. unfold_result. cbv zeta.
    destruct (Decode this (c_str a)); reflexivity.
  - intros Act Hr. rewrite Act. simpl negb. cbv iota.
    assert (Hc : (0 <? h) && (h <=? GetLast (consensus this) h) = false).
    { apply andb_false_iff.
      destruct (Z.ltb_spec 0 h); [right | left; reflexivity]. apply Z.leb_gt. lia. }
    rewrite Hc. reflexivity.
  - intros Act. rewrite Act. simpl negb. cbv iota.
    rewrite Ea. unfold_result. cbv zeta.
    destruct (Decode this (c_str a)); reflexivity.
Qed.

(** X15: std::get never throws in GetFoundersRewardScriptAtHeight: the
    assertions before it exclude the other alternatives, so the call ends in
    a script, a failed assertion or an undefined operation of the address
    lookup, never in an exception. *)
Theorem script_never_throws (this : CChainParams) (h : Z) (what : string) :
  script this h <> Err (runtime_error what).
Proof.
  unfold GetFoundersRewardScriptAtHeight, GetConsensus.
  pose proof (address_never_throws this h what) as Ha.
  destruct (NetworkUpgradeActive (consensus this) h UPGRADE_YCASH); simpl negb; cbv iota.
  - unfold_result.
    destruct (address this h) as [a | e]; [| intros H; apply Ha; congruence].
    cbv zeta. destruct (Decode this (c_str a)); simpl; discriminate.
  - unfold_result.
    destruct ((0 <? h) && (h <=? GetLast (consensus this) h)); [| discriminate].
    destruct (address this h) as [a | e]; [| intros H; apply Ha; congruence].
    cbv zeta. destruct (Decode this (c_str a)); simpl; discriminate.
Qed.

End RewardScript.

(* ===================================================================== *)
(** ** Selection, the current parameters and the mutators together *)
(* ===================================================================== *)

Section ProcessState.

Variable BaseState : Type.
Variable SelectBaseParams : string -> BaseState -> result unit * BaseState.
Variable SetShield : CChainParams -> CChainParams.
Variable PRE POST : Z.
Variable GetLast : Consensus.Params -> Z -> Z.
Variable ZecToYec : CChainParams -> string -> string.
Variable DEFAULT : Z.

Local Abbreviation select := (SelectParams SelectBaseParams SetShield).
Local Abbreviation address := (GetFoundersRewardAddressAtHeight PRE POST GetLast ZecToYec).
Local Abbreviation schedule g := (vUpgrades (consensus (regTestParams g))).
Local Abbreviation update idx h g := (snd (UpdateNetworkUpgradeParameters idx h g)).

(** X16: Params() fails its assertion as long as nothing is selected;
    after a successful SelectParams(network) it returns the object of that
    network; after a failed SelectParams it returns what it returned
    before. *)
Theorem params_after_select (network : string) (g : Globals BaseState) :
  (pCurrentParams g = None -> Params_current g = Err assertion_failed) /\
  (forall g', select network g = (Ok tt, g') ->
     exists n, network = chain_name n /\ Params_current g' = Ok (object g' n)) /\
  (forall e g', select network g = (Err e, g') -> Params_current g' = Params_current g).
Proof.
  split; [| split].
  - intros E. unfold Params_current. rewrite E. reflexivity.
  - intros g'. unfold SelectParams.
    destruct (SelectBaseParams network (baseState g)) as [[u | e] b]; [| discriminate].
    destruct (Params network) as [p | e] eqn:EP; [| discriminate].
    intros H. inversion H as [Hg]. clear H Hg.
    exists p. split; [apply Params_inv; exact EP |].
    unfold Params_current.
    destruct (String.eqb network REGTEST && count _ "-regtestshieldcoinbase");
      destruct (String.eqb network REGTEST && count _ "-developersetpoolsizezero");
      reflexivity.
  - intros e g'. unfold SelectParams.
    destruct (SelectBaseParams network (baseState g)) as [[u | e0] b].
    + destruct (Params network) as [p | e1]; [discriminate |].
      intros H. inversion H. reflexivity.
    + intros H. inversion H. reflexivity.
Qed.

(** X17: SelectParams never changes the main and test parameter
    objects, the Equihash table or the arguments; it leaves the regtest
    object alone unless the network is "regtest" and one of
    -regtestshieldcoinbase and -developersetpoolsizezero is given. *)
Theorem select_frame (network : string) (g : Globals BaseState) :
  let g' := snd (select network g) in
  mainParams g' = mainParams g /\
  testNetParams g' = testNetParams g /\
  EquihashUpgradeInfo g' = EquihashUpgradeInfo g /\
  mapArgs g' = mapArgs g /\
  (network <> "regtest" -> regTestParams g' = regTestParams g) /\
  (count (mapArgs g) "-regtestshieldcoinbase" = false ->
   count (mapArgs g) "-developersetpoolsizezero" = false ->
   regTestParams g' = regTestParams g).
Proof.
  unfold SelectParams. cbv zeta.
  destruct (SelectBaseParams network (baseState g)) as [[u | e] b];
    [| simpl; repeat split; reflexivity].
  destruct (Params network) as [p | e]; [| simpl; repeat split; reflexivity].
  cbn [mapArgs set_pCurrentParams set_baseState set_regTestParams].
  destruct (String.eqb_spec network REGTEST) as [E | E].
  - destruct (count (mapArgs g) "-regtestshieldcoinbase") eqn:C1;
      cbn [mapArgs set_pCurrentParams set_baseState set_regTestParams andb];
      destruct (count (mapArgs g) "-developersetpoolsizezero") eqn:C2;
      cbn [snd]; repeat split; try reflexivity; try discriminate;
      intros Hn; exfalso; apply Hn; exact E.
  - cbn [andb snd]. repeat split; reflexivity.
Qed.

(** X18: when the process was started with -developersetpoolsizezero and
    SelectBaseParams accepts "regtest", SelectParams("regtest") succeeds,
    binds the current parameters to the regtest object and that object has
    fZIP209Enabled set. *)
Theorem select_regtest_enables_zip209 (g : Globals BaseState) (u : unit) (b : BaseState) :
  SelectBaseParams "regtest" (baseState g) = (Ok u, b) ->
  count (mapArgs g) "-developersetpoolsizezero" = true ->
  exists g',
    select "regtest" g = (Ok tt, g') /\
    pCurrentParams g' = Some RegTest /\
    fZIP209Enabled (regTestParams g') = true /\
    Params_current g' = Ok (regTestParams g').
Proof.
  intros EB C2. unfold SelectParams. rewrite EB.
  change (Params "regtest") with (@Ok Network RegTest). cbv iota zeta.
  cbn [mapArgs set_pCurrentParams set_baseState set_regTestParams].
  change (String.eqb "regtest" REGTEST) with true. cbn [andb].
  destruct (count (mapArgs g) "-regtestshieldcoinbase");
    cbn [mapArgs set_pCurrentParams set_baseState set_regTestParams];
    rewrite C2; eexists; (split; [reflexivity |]); repeat split; reflexivity.
Qed.

(** X19: the current parameters alias the parameter objects: after
    UpdateNetworkUpgradeParameters with a valid index, Params() shows the new
    activation height when the regtest network is selected and returns
    exactly what it returned before when the main or the test network is
    selected. *)
Theorem update_seen_through_current (idx h : Z) (i : UpgradeIndex) (g : Globals BaseState) :
  index_value BASE_SPROUT < idx < MAX_NETWORK_UPGRADES ->
  index_of_value idx = Some i ->
  (pCurrentParams g = Some RegTest ->
     exists r, Params_current (update idx h g) = Ok r /\
               nActivationHeight (vUpgrades (consensus r) i) = h) /\
  (pCurrentParams g = Some MainNet \/ pCurrentParams g = Some TestNet ->
     Params_current (update idx h g) = Params_current g) /\
  (pCurrentParams g = None -> Params_current (update idx h g) = Err assertion_failed).
Proof.
  intros Hidx Ei.
  assert (Hc : (index_value BASE_SPROUT <? idx) && (idx <? MAX_NETWORK_UPGRADES) = true).
  { apply andb_true_iff. split; apply Z.ltb_lt; lia. }
  unfold UpdateNetworkUpgradeParameters, CRegTestParams_UpdateNetworkUpgradeParameters.
  rewrite Hc. unfold_result. rewrite Ei. cbn [snd].
  unfold Params_current. cbn [pCurrentParams set_regTestParams].
  split; [| split].
  - intros ->. eexists. split; [reflexivity |].
    cbn [object regTestParams set_regTestParams consensus set_consensus vUpgrades
         set_nActivationHeight].
    rewrite fn_lookup_insert. reflexivity.
  - intros [-> | ->]; reflexivity.
  - intros ->. reflexivity.
Qed.

(** The regtest object after a valid update. *)
Lemma update_regTestParams (idx h : Z) (i : UpgradeIndex) (g : Globals BaseState) :
  index_value BASE_SPROUT < idx < MAX_NETWORK_UPGRADES ->
  index_of_value idx = Some i ->
  regTestParams (update idx h g) =
    set_consensus (set_nActivationHeight i h (consensus (regTestParams g))) (regTestParams g).
Proof.
  intros Hidx Ei.
  assert (Hc : (index_value BASE_SPROUT <? idx) && (idx <? MAX_NETWORK_UPGRADES) = true).
  { apply andb_true_iff. split; apply Z.ltb_lt; lia. }
  unfold UpdateNetworkUpgradeParameters, CRegTestParams_UpdateNetworkUpgradeParameters.
  rewrite Hc. unfold_result. rewrite Ei. reflexivity.
Qed.

(** X20: activating the Ycash fork on regtest through
    UpdateNetworkUpgradeParameters(UPGRADE_YCASH, F) switches the reward
    rotation of the regtest object: from height F on the address is the
    successor entry floor((height - F) / 17917) mod size, and below F the
    fork is not active, while the successor and legacy lists are the same
    as before. *)
Theorem update_ycash_switches_regime (F h : Z) (g : Globals BaseState) :
  let r := regTestParams g in
  let r' := regTestParams (update (index_value UPGRADE_YCASH) F g) in
  0 <= F -> vYcashFoundersRewardAddress r <> [] ->
  vYcashFoundersRewardAddress r' = vYcashFoundersRewardAddress r /\
  vFoundersRewardAddress r' = vFoundersRewardAddress r /\
  (F <= h <= INT_MAX ->
     address r' h =
       at_index (vYcashFoundersRewardAddress r)
                (((h - F) / 17917) mod size (vYcashFoundersRewardAddress r))) /\
  (h < F -> NetworkUpgradeActive (consensus r') h UPGRADE_YCASH = false).
Proof.
  intros r r' HF Hne.
  assert (Er : r' = set_consensus (set_nActivationHeight UPGRADE_YCASH F (consensus r)) r).
  { unfold r'. apply update_regTestParams; [vm_compute; split; reflexivity | reflexivity]. }
  assert (EF : nActivationHeight (vUpgrades (consensus r') UPGRADE_YCASH) = F).
  { rewrite Er. cbn [consensus set_consensus vUpgrades set_nActivationHeight].
    rewrite fn_lookup_insert. reflexivity. }
  assert (EL : vYcashFoundersRewardAddress r' = vYcashFoundersRewardAddress r)
    by (rewrite Er; reflexivity).
  split; [exact EL |]. split; [rewrite Er; reflexivity |]. split.
  - intros Hh.
    destruct (address_postfork_nonempty PRE POST GetLast ZecToYec r' h) as [E _].
    + rewrite EF. exact HF.
    + rewrite EF. exact Hh.
    + rewrite EL. exact Hne.
    + rewrite E, EF, EL. reflexivity.
  - intros Hlt.
    destruct (NetworkUpgradeActive (consensus r') h UPGRADE_YCASH) eqn:Act; [| reflexivity].
    apply NetworkUpgradeActive_true in Act. rewrite EF in Act. lia.
Qed.

(** X21: how updates of the regtest schedule compose, entry by entry: a
    later update of the same index overwrites the earlier one, updates of
    different indices commute, writing back the height an entry had restores
    the schedule, and no update changes a protocol version. *)
Theorem updates_compose (idx1 idx2 h1 h2 : Z) (i1 i2 : UpgradeIndex) (g : Globals BaseState) :
  index_value BASE_SPROUT < idx1 < MAX_NETWORK_UPGRADES ->
  index_value BASE_SPROUT < idx2 < MAX_NETWORK_UPGRADES ->
  index_of_value idx1 = Some i1 -> index_of_value idx2 = Some i2 ->
  (forall j, schedule (update idx1 h2 (update idx1 h1 g)) j = schedule (update idx1 h2 g) j) /\
  (i1 <> i2 ->
   forall j, schedule (update idx2 h2 (update idx1 h1 g)) j =
             schedule (update idx1 h1 (update idx2 h2 g)) j) /\
  (forall j, schedule (update idx1 (nActivationHeight (schedule g i1)) (update idx1 h1 g)) j =
             schedule g j) /\
  (forall j, nProtocolVersion (schedule (update idx1 h1 g) j) = nProtocolVersion (schedule g j)).
Proof.
  intros H1 H2 E1 E2.
  assert (U : forall idx h i (g0 : Globals BaseState), index_value BASE_SPROUT < idx < MAX_NETWORK_UPGRADES ->
            index_of_value idx = Some i ->
            forall j, schedule (update idx h g0) j =
              if decide (i = j)
              then {| nProtocolVersion := nProtocolVersion (schedule g0 i); nActivationHeight := h |}
              else schedule g0 j).
  { intros idx h i g0 Hi Ei j. rewrite (update_regTestParams idx h i g0 Hi Ei).
    cbn [consensus set_consensus vUpgrades set_nActivationHeight].
    unfold insert, fn_insert. reflexivity. }
  split; [| split; [| split]].
  - intros j.
    repeat (first [rewrite (U idx1 _ i1) by assumption | rewrite (U idx2 _ i2) by assumption]).
    repeat case_decide; subst; try congruence; reflexivity.
  - intros Hne j.
    repeat (first [rewrite (U idx1 _ i1) by assumption | rewrite (U idx2 _ i2) by assumption]).
    repeat case_decide; subst; try congruence; reflexivity.
  - intros j.
    repeat (first [rewrite (U idx1 _ i1) by assumption | rewrite (U idx2 _ i2) by assumption]).
    repeat case_decide; subst; try congruence; try reflexivity.
    cbn [nProtocolVersion]. destruct (schedule g j). reflexivity.
  - intros j. rewrite (U idx1 h1 i1) by assumption.
    case_decide; subst; reflexivity.
Qed.

(** X22: UpdateEquihashUpgradeParameters with a valid index takes effect
    on every network other than regtest, whichever is selected: at a height
    whose epoch is that index EquihashN and EquihashK return the new n and k
    (the default where the new value is the sentinel), at heights of other
    epochs they return what they returned before, and on a regtest network
    they still return the network-wide pair. With an index that is not above
    BASE_SPROUT and below MAX_NETWORK_UPGRADES the assertion fails and the
    table is unchanged. *)
Theorem equihash_update_lookup (idx n k : Z) (g : Globals BaseState)
    (this : CChainParams) (h : Z) :
  let g' := snd (UpdateEquihashUpgradeParameters idx n k g) in
  (forall i,
     index_value BASE_SPROUT < idx < MAX_NETWORK_UPGRADES -> index_of_value idx = Some i ->
     fst (UpdateEquihashUpgradeParameters idx n k g) = Ok tt /\
     (strNetworkID this <> "regtest" -> CurrentEpoch h (consensus this) = i ->
        EquihashN DEFAULT (EquihashUpgradeInfo g') this h
          = (if n =? DEFAULT then nEquihashN (consensus this) else n) /\
        EquihashK DEFAULT (EquihashUpgradeInfo g') this h
          = (if k =? DEFAULT then nEquihashK (consensus this) else k)) /\
     (CurrentEpoch h (consensus this) <> i ->
        EquihashN DEFAULT (EquihashUpgradeInfo g') this h
          = EquihashN DEFAULT (EquihashUpgradeInfo g) this h /\
        EquihashK DEFAULT (EquihashUpgradeInfo g') this h
          = EquihashK DEFAULT (EquihashUpgradeInfo g) this h)) /\
  (strNetworkID this = "regtest" ->
     EquihashN DEFAULT (EquihashUpgradeInfo g') this h = nEquihashN (consensus this) /\
     EquihashK DEFAULT (EquihashUpgradeInfo g') this h = nEquihashK (consensus this)) /\
  (~ (index_value BASE_SPROUT < idx < MAX_NETWORK_UPGRADES) ->
     UpdateEquihashUpgradeParameters idx n k g = (Err assertion_failed, g)).
Proof.
  cbv zeta. split; [| split].
  - intros i Hidx Ei.
    assert (Hc : (index_value BASE_SPROUT <? idx) && (idx <? MAX_NETWORK_UPGRADES) = true).
    { apply andb_true_iff. split; apply Z.ltb_lt; lia. }
    unfold UpdateEquihashUpgradeParameters. rewrite Hc, Ei. unfold_result. cbn [fst snd].
    cbn [EquihashUpgradeInfo set_EquihashUpgradeInfo].
    split; [reflexivity |]. split.
    + intros Hnet Ep. apply String.eqb_neq in Hnet.
      unfold EquihashN, EquihashK, GetConsensus. rewrite Hnet, Ep. cbv zeta.
      rewrite fn_lookup_insert. split; reflexivity.
    + intros Ep. unfold EquihashN, EquihashK, GetConsensus. cbv zeta.
      rewrite fn_lookup_insert_ne by congruence. split; reflexivity.
  - intros Hnet. unfold EquihashN, EquihashK, GetConsensus. rewrite Hnet. split; reflexivity.
  - intros Hidx.
    assert (Hc : (index_value BASE_SPROUT <? idx) && (idx <? MAX_NETWORK_UPGRADES) = false).
    { unfold MAX_NETWORK_UPGRADES in *. simpl (index_value BASE_SPROUT) in *.
      apply andb_false_iff.
      destruct (Z.ltb_spec 0 idx); [right | left; reflexivity]. apply Z.ltb_ge. lia. }
    unfold UpdateEquihashUpgradeParameters. rewrite Hc. reflexivity.
Qed.

(** X23: neither mutator can touch the base epoch: for every index
    argument, valid or not, the BASE_SPROUT entry of the regtest schedule and
    the BASE_SPROUT entry of the Equihash table are what they were. *)
Theorem base_epoch_immutable (idx h n k : Z) (g : Globals BaseState) :
  schedule (update idx h g) BASE_SPROUT = schedule g BASE_SPROUT /\
  EquihashUpgradeInfo (snd (UpdateEquihashUpgradeParameters idx n k g)) BASE_SPROUT
    = EquihashUpgradeInfo g BASE_SPROUT.
Proof.
  unfold UpdateNetworkUpgradeParameters, CRegTestParams_UpdateNetworkUpgradeParameters,
    UpdateEquihashUpgradeParameters.
  destruct ((index_value BASE_SPROUT <? idx) && (idx <? MAX_NETWORK_UPGRADES)) eqn:Hc;
    unfold_result; [| split; reflexivity].
  apply andb_true_iff in Hc. destruct Hc as [H1 H2].
  apply Z.ltb_lt in H1. apply Z.ltb_lt in H2.
  destruct (index_of_value_valid idx) as (i & Ei & Ev);
    [simpl (index_value BASE_SPROUT) in H1; lia |].
  rewrite Ei. cbn [snd regTestParams set_regTestParams consensus set_consensus vUpgrades
                   set_nActivationHeight EquihashUpgradeInfo set_EquihashUpgradeInfo].
  assert (Hne : i <> BASE_SPROUT).
  { intros ->. simpl in Ev. subst idx. simpl in H1. lia. }
  split; apply fn_lookup_insert_ne; exact Hne.
Qed.

End ProcessState.

(* ===================================================================== *)
(** ** The further properties on the sample inputs *)
(* ===================================================================== *)

Local Abbreviation sample_script :=
  (GetFoundersRewardScriptAtHeight 150 75 sample_GetLastFoundersRewardBlockHeight
     sample_ZecToYec sample_DecodeDestination).

Lemma sample_ratio_ok : 0 < 75 <= 150.
Proof. lia. Defined.

Lemma sample_is_int (z : Z) : (INT_MIN <=? z) && (z <=? INT_MAX) = true -> is_int z.
Proof.
  intros H. apply andb_true_iff in H. destruct H as [H1 H2].
  apply Z.leb_le in H1. apply Z.leb_le in H2. split; assumption.
Defined.

Lemma sample_blossom_schedule_ok : schedule_ok (consensus sample_blossom_net).
Proof.
  apply sample_schedule_ok; [vm_compute; discriminate | apply CRegTestParams_schedule_ok].
Defined.

Lemma legacy_height_outside_asserts_witness :
  sample_address sample_legacy_net 0 = Err assertion_failed /\
  sample_address sample_legacy_net 481 = Err assertion_failed.
Proof.
  destruct (legacy_height_outside_asserts 150 75 sample_GetLastFoundersRewardBlockHeight
              sample_ZecToYec sample_legacy_net 0) as (_ & H0 & _).
  - apply sample_is_int. reflexivity.
  - apply CRegTestParams_schedule_ok.
  - apply sample_ratio_ok.
  - reflexivity.
  - destruct (legacy_height_outside_asserts 150 75 sample_GetLastFoundersRewardBlockHeight
                sample_ZecToYec sample_legacy_net 481) as (_ & _ & H1).
    + apply sample_is_int. reflexivity.
    + apply CRegTestParams_schedule_ok.
    + apply sample_ratio_ok.
    + reflexivity.
    + split; [apply H0; lia | apply H1; reflexivity].
Defined.

Lemma empty_list_is_undefined_witness :
  sample_address sample_empty_net 100 = Err undefined_behaviour /\
  sample_address sample_empty_net 1000 = Err undefined_behaviour.
Proof.
  split.
  - destruct (empty_list_is_undefined 150 75 sample_GetLastFoundersRewardBlockHeight
                sample_ZecToYec sample_empty_net 100) as [H _].
    apply (H 100); [reflexivity | reflexivity | vm_compute; split; [reflexivity | discriminate]
                   | reflexivity].
  - destruct (empty_list_is_undefined 150 75 sample_GetLastFoundersRewardBlockHeight
                sample_ZecToYec sample_empty_net 1000) as [_ H].
    apply H; [vm_compute; discriminate | vm_compute; split; discriminate | reflexivity].
Defined.

Lemma legacy_index_blocks_witness :
  legacyIndex sample_GetLastFoundersRewardBlockHeight sample_legacy_net 100 = Ok 9.
Proof.
  apply (legacy_index_blocks sample_GetLastFoundersRewardBlockHeight sample_legacy_net 100 9).
  - apply sample_is_int. reflexivity.
  - vm_compute. discriminate.
  - discriminate.
  - vm_compute. split; [reflexivity | discriminate].
  - vm_compute. split; [discriminate | reflexivity].
Defined.

Lemma legacy_entries_used_witness :
  (exists h', 0 < h' <= 480 /\
              legacyIndex sample_GetLastFoundersRewardBlockHeight sample_legacy_net h' = Ok 43) /\
  480 / (480 / 48 + 1) <= 48 - 1.
Proof.
  destruct (legacy_entries_used sample_GetLastFoundersRewardBlockHeight sample_legacy_net)
    as (_ & H & Hb).
  - apply sample_is_int. reflexivity.
  - vm_compute. discriminate.
  - discriminate.
  - vm_compute. discriminate.
  - split; [apply (H 43); vm_compute; split; discriminate | exact Hb].
Defined.

Lemma adjusted_height_step_witness :
  exists a, FounderAddressAdjustedHeight 150 75 sample_blossom_net 300 = Ok a /\
            FounderAddressAdjustedHeight 150 75 sample_blossom_net 302 = Ok (a + 1).
Proof.
  apply (adjusted_height_step 150 75 sample_blossom_net 300).
  - apply sample_is_int. reflexivity.
  - apply sample_blossom_schedule_ok.
  - apply sample_ratio_ok.
  - reflexivity.
  - vm_compute. discriminate.
Defined.

Lemma adjusted_height_bounds_witness :
  exists a, FounderAddressAdjustedHeight 150 75 sample_blossom_net 300 = Ok a /\ a <= 300.
Proof.
  destruct (adjusted_height_bounds 150 75 sample_blossom_net 300) as (a & H1 & H2 & _).
  - apply sample_is_int. reflexivity.
  - apply sample_blossom_schedule_ok.
  - apply sample_ratio_ok.
  - exists a. split; assumption.
Defined.

Lemma ycash_address_total_witness :
  exists a, sample_address sample_ycash_net (1000 + 17917) = Ok a /\
            a ∈ vYcashFoundersRewardAddress sample_ycash_net.
Proof.
  destruct (ycash_address_total 150 75 sample_GetLastFoundersRewardBlockHeight
              sample_ZecToYec sample_ycash_net (1000 + 17917)) as (a & H1 & H2 & _).
  - vm_compute. discriminate.
  - vm_compute. split; discriminate.
  - discriminate.
  - exists a. split; assumption.
Defined.

Lemma ycash_rotation_periodic_witness :
  sample_address sample_ycash_net (1234 + 3 * (17917 * 48)) = sample_address sample_ycash_net 1234.
Proof.
  apply (ycash_rotation_periodic 150 75 sample_GetLastFoundersRewardBlockHeight
           sample_ZecToYec sample_ycash_net 1234 3).
  - vm_compute. discriminate.
  - vm_compute. discriminate.
  - lia.
  - vm_compute. discriminate.
  - discriminate.
Defined.

Lemma ycash_rotation_blocks_witness :
  sample_address sample_ycash_net 1000 = sample_address sample_ycash_net 18916 /\
  sample_address sample_ycash_net 18917 = Ok "smDxM6WPpz3HcK6m9cCnhQkBXMLnUf3cryA".
Proof.
  split.
  - destruct (ycash_rotation_blocks 150 75 sample_GetLastFoundersRewardBlockHeight
                sample_ZecToYec sample_ycash_net 1000 18916) as [H _].
    + vm_compute. discriminate.
    + vm_compute. split; discriminate.
    + vm_compute. split; discriminate.
    + discriminate.
    + apply H. reflexivity.
  - destruct (ycash_rotation_blocks 150 75 sample_GetLastFoundersRewardBlockHeight
                sample_ZecToYec sample_ycash_net 1000 18917) as [_ H].
    + vm_compute. discriminate.
    + vm_compute. split; discriminate.
    + vm_compute. split; discriminate.
    + discriminate.
    + rewrite H by reflexivity. reflexivity.
Defined.

Lemma shipped_networks_never_rescale_witness :
  FounderAddressAdjustedHeight 150 75 CMainParams 100000 = Ok 100000 /\
  FounderAddressAdjustedHeight 150 75 CTestNetParams 510247 = Ok 510247.
Proof.
  split.
  - apply (shipped_networks_never_rescale 150 75 sample_GetLastFoundersRewardBlockHeight
             sample_ZecToYec CMainParams 100000); [left; reflexivity | reflexivity].
  - apply (shipped_networks_never_rescale 150 75 sample_GetLastFoundersRewardBlockHeight
             sample_ZecToYec CTestNetParams 510247); [right; reflexivity | reflexivity].
Defined.

Lemma address_at_index_bounds_witness :
  (exists a, GetZcashFoundersRewardAddressAtIndex sample_ZecToYec sample_legacy_net 47 = Ok a) /\
  GetYcashFoundersRewardAddressAtIndex sample_legacy_net 48 = Err assertion_failed /\
  GetZcashFoundersRewardAddressAtIndex sample_ZecToYec sample_legacy_net (-1) = Err assertion_failed.
Proof.
  split; [| split].
  - destruct (address_at_index_bounds sample_ZecToYec sample_legacy_net 47) as (H & _).
    + apply sample_is_int. reflexivity.
    + destruct H as (a & _ & Ha); [vm_compute; split; [discriminate | reflexivity] |].
      eexists. exact Ha.
  - destruct (address_at_index_bounds sample_ZecToYec sample_legacy_net 48) as (_ & _ & _ & H).
    + apply sample_is_int. reflexivity.
    + apply H. vm_compute. intros [_ Hc]. discriminate Hc.
  - destruct (address_at_index_bounds sample_ZecToYec sample_legacy_net (-1)) as (_ & H & _).
    + apply sample_is_int. reflexivity.
    + apply H. vm_compute. intros [Hc _]. apply Hc. reflexivity.
Defined.

Lemma height_lookup_is_index_lookup_witness :
  sample_address sample_blossom_net 300 =
    GetZcashFoundersRewardAddressAtIndex sample_ZecToYec sample_blossom_net 18 /\
  sample_address sample_ycash_net 20000 =
    GetYcashFoundersRewardAddressAtIndex sample_ycash_net 1.
Proof.
  split.
  - destruct (height_lookup_is_index_lookup 150 75 sample_GetLastFoundersRewardBlockHeight
                sample_ZecToYec sample_blossom_net 300) as [H _].
    apply (H 200 18).
    + reflexivity.
    + reflexivity.
    + apply sample_is_int. reflexivity.
    + vm_compute. discriminate.
    + discriminate.
    + vm_compute. split; [reflexivity | discriminate].
    + reflexivity.
  - destruct (height_lookup_is_index_lookup 150 75 sample_GetLastFoundersRewardBlockHeight
                sample_ZecToYec sample_ycash_net 20000) as [_ H].
    apply H; [vm_compute; discriminate | vm_compute; split; discriminate | discriminate].
Defined.

Lemma script_matches_address_witness :
  exists a id,
    sample_address sample_blossom_net 300 = Ok a /\
    sample_DecodeDestination sample_blossom_net (c_str a) = CScriptID id /\
    sample_script sample_blossom_net 300 = Ok [OP_HASH160; Push id; OP_EQUAL].
Proof.
  destruct (script_matches_address 150 75 sample_GetLastFoundersRewardBlockHeight
              sample_ZecToYec sample_DecodeDestination sample_blossom_net 300
              [OP_HASH160;
               Push (String.list_byte_of_string "regtest:t3esCNwwmcyc8i9qQfyTbYhTqmYXZ9AwK3X");
               OP_EQUAL])
    as (a & Ha & Hs & _).
  - reflexivity.
  - destruct Hs as [(id & Hd & Hs) | (Hact & _)]; [| vm_compute in Hact; discriminate Hact].
    exists a, id. split; [exact Ha |]. split; [exact Hd |]. rewrite <- Hs. reflexivity.
Defined.

Lemma script_by_destination_witness :
  sample_script sample_ycash_net 1000 =
    Ok [OP_DUP; OP_HASH160;
        Push (String.list_byte_of_string "smDw2LWkeuJ1NGBDDZvdNbzY8A9D1mkkDZm");
        OP_EQUALVERIFY; OP_CHECKSIG] /\
  sample_script sample_legacy_net 240 =
    Ok [OP_HASH160;
        Push (String.list_byte_of_string "regtest:t3LTWeoxeWPbmdkUD3NWBquk4WkazhFBmvU");
        OP_EQUAL].
Proof.
  split.
  - destruct (script_by_destination 150 75 sample_GetLastFoundersRewardBlockHeight
                sample_ZecToYec sample_DecodeDestination sample_ycash_net 1000
                "smDw2LWkeuJ1NGBDDZvdNbzY8A9D1mkkDZm") as (_ & _ & H).
    + reflexivity.
    + rewrite H by reflexivity. reflexivity.
  - destruct (script_by_destination 150 75 sample_GetLastFoundersRewardBlockHeight
                sample_ZecToYec sample_DecodeDestination sample_legacy_net 240
                "regtest:t3LTWeoxeWPbmdkUD3NWBquk4WkazhFBmvU") as (H & _ & _).
    + reflexivity.
    + rewrite H; [reflexivity | reflexivity | vm_compute; split; [reflexivity | discriminate]].
Defined.

Lemma params_after_select_witness :
  Params_current sample_globals = Err assertion_failed /\
  exists g', SelectParams sample_SelectBaseParams sample_SetRegTestCoinbaseMustBeShielded
               "test" sample_globals = (Ok tt, g') /\
             Params_current g' = Ok (object g' TestNet).
Proof.
  destruct (params_after_select unit sample_SelectBaseParams
              sample_SetRegTestCoinbaseMustBeShielded "test" sample_globals) as (H1 & H2 & _).
  split; [apply H1; reflexivity |].
  eexists. split; [reflexivity |].
  destruct (H2 _ eq_refl) as (n & En & Hn).
  destruct n; try discriminate En. exact Hn.
Defined.

Lemma select_frame_witness :
  regTestParams (snd (SelectParams sample_SelectBaseParams sample_SetRegTestCoinbaseMustBeShielded
                        "main" sample_globals_zip209)) = CRegTestParams false /\
  regTestParams (snd (SelectParams sample_SelectBaseParams sample_SetRegTestCoinbaseMustBeShielded
                        "regtest" sample_globals)) = CRegTestParams false.
Proof.
  split.
  - destruct (select_frame unit sample_SelectBaseParams sample_SetRegTestCoinbaseMustBeShielded
                "main" sample_globals_zip209) as (_ & _ & _ & _ & H & _).
    apply H. discriminate.
  - destruct (select_frame unit sample_SelectBaseParams sample_SetRegTestCoinbaseMustBeShielded
                "regtest" sample_globals) as (_ & _ & _ & _ & _ & H).
    apply H; reflexivity.
Defined.

Lemma select_regtest_enables_zip209_witness :
  fZIP209Enabled (regTestParams sample_globals_zip209) = false /\
  exists g', SelectParams sample_SelectBaseParams sample_SetRegTestCoinbaseMustBeShielded
               "regtest" sample_globals_zip209 = (Ok tt, g') /\
             fZIP209Enabled (regTestParams g') = true.
Proof.
  split; [reflexivity |].
  destruct (select_regtest_enables_zip209 unit sample_SelectBaseParams
              sample_SetRegTestCoinbaseMustBeShielded sample_globals_zip209 tt tt)
    as (g' & H1 & _ & H3 & _).
  - reflexivity.
  - vm_compute. reflexivity.
  - exists g'. split; assumption.
Defined.

Lemma update_seen_through_current_witness :
  (exists r, Params_current (snd (UpdateNetworkUpgradeParameters 5 100 sample_globals_regtest)) = Ok r /\
             nActivationHeight (vUpgrades (consensus r) UPGRADE_BLOSSOM) = 100) /\
  Params_current (snd (UpdateNetworkUpgradeParameters 5 100 sample_globals_main))
    = Params_current sample_globals_main.
Proof.
  split.
  - destruct (update_seen_through_current unit 5 100 UPGRADE_BLOSSOM sample_globals_regtest)
      as (H & _).
    + vm_compute. split; reflexivity.
    + reflexivity.
    + apply H. reflexivity.
  - destruct (update_seen_through_current unit 5 100 UPGRADE_BLOSSOM sample_globals_main)
      as (_ & H & _).
    + vm_compute. split; reflexivity.
    + reflexivity.
    + apply H. left. reflexivity.
Defined.

Lemma update_ycash_switches_regime_witness :
  sample_address (regTestParams (snd (UpdateNetworkUpgradeParameters 4 1000 sample_globals))) 18917
    = Ok "smDxM6WPpz3HcK6m9cCnhQkBXMLnUf3cryA" /\
  NetworkUpgradeActive
    (consensus (regTestParams (snd (UpdateNetworkUpgradeParameters 4 1000 sample_globals))))
    999 UPGRADE_YCASH = false.
Proof.
  destruct (update_ycash_switches_regime unit 150 75 sample_GetLastFoundersRewardBlockHeight
              sample_ZecToYec 1000 18917 sample_globals) as (_ & _ & H & _).
  - vm_compute. discriminate.
  - discriminate.
  - destruct (update_ycash_switches_regime unit 150 75 sample_GetLastFoundersRewardBlockHeight
                sample_ZecToYec 1000 999 sample_globals) as (_ & _ & _ & H').
    + vm_compute. discriminate.
    + discriminate.
    + split.
      * change (index_value UPGRADE_YCASH) with 4 in H.
        rewrite H by (vm_compute; split; discriminate). reflexivity.
      * apply H'. reflexivity.
Defined.

Lemma updates_compose_witness :
  (forall j,
     vUpgrades (consensus (regTestParams
        (snd (UpdateNetworkUpgradeParameters 5 200
           (snd (UpdateNetworkUpgradeParameters 4 100 sample_globals)))))) j =
     vUpgrades (consensus (regTestParams
        (snd (UpdateNetworkUpgradeParameters 4 100
           (snd (UpdateNetworkUpgradeParameters 5 200 sample_globals)))))) j) /\
  (forall j,
     vUpgrades (consensus (regTestParams
        (snd (UpdateNetworkUpgradeParameters 4 (-1)
           (snd (UpdateNetworkUpgradeParameters 4 100 sample_globals)))))) j =
     vUpgrades (consensus (regTestParams sample_globals)) j).
Proof.
  destruct (updates_compose unit 4 5 100 200 UPGRADE_YCASH UPGRADE_BLOSSOM sample_globals)
    as (_ & H2 & H3 & _).
  - vm_compute. split; reflexivity.
  - vm_compute. split; reflexivity.
  - reflexivity.
  - reflexivity.
  - split; [apply H2; discriminate | exact H3].
Defined.

Lemma equihash_update_lookup_witness :
  EquihashN sample_DEFAULT_PARAMS
    (EquihashUpgradeInfo (snd (UpdateEquihashUpgradeParameters 4 96 5 sample_globals_regtest)))
    CMainParams 600000 = 96 /\
  EquihashK sample_DEFAULT_PARAMS
    (EquihashUpgradeInfo (snd (UpdateEquihashUpgradeParameters 4 96 5 sample_globals_regtest)))
    CMainParams 600000 = 5 /\
  UpdateEquihashUpgradeParameters 0 96 5 sample_globals_regtest
    = (Err assertion_failed, sample_globals_regtest).
Proof.
  destruct (equihash_update_lookup unit sample_DEFAULT_PARAMS 4 96 5 sample_globals_regtest
              CMainParams 600000) as (H & _ & _).
  destruct (H UPGRADE_YCASH) as (_ & H1 & _).
  - vm_compute. split; reflexivity.
  - reflexivity.
  - destruct H1 as [HN HK]; [discriminate | reflexivity |].
    split; [exact HN |]. split; [exact HK |].
    destruct (equihash_update_lookup unit sample_DEFAULT_PARAMS 0 96 5 sample_globals_regtest
                CMainParams 600000) as (_ & _ & H0).
    apply H0. vm_compute. intros [Hc _]. discriminate Hc.
Defined.
